(** * Carris line viewer: schedule and pattern resolution, GPX export

    A shallow embedding of the decision logic of the TypeScript sources
    [src/main.ts] (direction labels, service calendar, trip ordering) and
    [src/gpx.ts] (track serializer), over the records of [src/api.ts].

    JavaScript values are modelled as follows.
    - The inputs are values of the interfaces of [src/api.ts]: arrays and
      strings are present where the interface declares them.  The one
      exception is [short_name], which is optional here.
    - A string is a [string], a sequence of code units.  Comparison with [<=]
      and the default [Array.prototype.sort] order is the lexicographic order
      on code units, [String.leb]; the code compares dates only, which are
      digits.  [localeCompare] belongs to the host and is a parameter.
    - Integers of type [number] that the code compares or counts (direction
      codes, trip counts, stop sequence numbers) are [Z]; the coordinates of a
      shape are kept abstract, together with their conversion to text.
    - An array is a [list]; a [Set] is a duplicate-free list in insertion
      order; a plain object used as a dictionary is the list of its own
      properties in creation order, read through [Object.prototype] and
      enumerated as [Object.entries] does.
    - Reading a property of [undefined] throws: such reads go through [prop]
      in the [result] monad, so that a guard of the source is what keeps a
      function from throwing. *)

From Stdlib Require Import ZArith NArith List String Ascii Bool Lia.
From Stdlib Require Import Permutation Sorted DecimalString.
Import ListNotations.

Set Implicit Arguments.

Open Scope string_scope.
Open Scope list_scope.

(* ================================================================== *)
(** ** JavaScript runtime notions used by the sources                  *)
(* ================================================================== *)

Module JS.

(** Completion of an evaluation: a value, or a thrown exception. *)
Inductive result (A : Type) : Type :=
| Ok (a : A)
| Throw (error : string).

Arguments Ok {A} a.
Arguments Throw {A} error.

Definition bind {A B : Type} (m : result A) (k : A -> result B) : result B :=
  match m with
  | Ok a => k a
  | Throw e => Throw e
  end.

Notation "x <- m ;; k" := (bind m (fun x => k))
  (at level 61, m at next level, right associativity).
Notation "' pat <- m ;; k" := (bind m (fun x => match x with pat => k end))
  (at level 61, pat pattern, m at next level, right associativity).

(** [arr.forEach(f)] where the callback may throw and updates a state. *)
Fixpoint forEach {A S : Type} (f : S -> A -> result S) (l : list A) (s : S)
  : result S :=
  match l with
  | [] => Ok s
  | x :: l' => s' <- f s x ;; forEach f l' s'
  end.

(** [x.p] where [x] may be [undefined]. *)
Definition prop {A B : Type} (x : option A) (p : A -> B) : result B :=
  match x with
  | Some a => Ok (p a)
  | None => Throw "TypeError: Cannot read properties of undefined"
  end.

(** ToBoolean, per type of value. *)
Class Truthy (A : Type) := truthy : A -> bool.

#[global] Instance Truthy_string : Truthy string :=
  fun s => negb (String.eqb s EmptyString).
#[global] Instance Truthy_Z : Truthy Z :=
  fun n => negb (Z.eqb n 0).
#[global] Instance Truthy_array {A : Type} : Truthy (list A) :=
  fun _ => true.
#[global] Instance Truthy_undefinable {A : Type} `{Truthy A} : Truthy (option A) :=
  fun o => match o with Some a => truthy a | None => false end.

(** [a || b] where [a] may be [undefined]. *)
Definition or_else {A : Type} `{Truthy A} (a : option A) (b : A) : A :=
  match a with
  | Some v => if truthy v then v else b
  | None => b
  end.

(** A template literal placeholder holding a string that may be [undefined]. *)
Definition template (a : option string) : string :=
  match a with
  | Some s => s
  | None => "undefined"
  end.

(** Number-to-string conversion of an integer. *)
Definition Z_toString (n : Z) : string :=
  NilZero.string_of_int (Z.to_int n).

(** [arr.includes(x)] on strings. *)
Definition includes (l : list string) (x : string) : bool :=
  existsb (String.eqb x) l.

(** [set.add(x)]: a [Set] keeps insertion order and ignores a repeated value. *)
Definition Set_add (s : list string) (x : string) : list string :=
  if includes s x then s else s ++ [x].

(** [Array.prototype.sort]: a stable sort (the language fixes the result
    for a consistent comparator, so any stable sort serves).  [le x y] says
    that [x] may stay before [y]. *)
Fixpoint insert_sorted {A : Type} (le : A -> A -> bool) (x : A) (l : list A)
  : list A :=
  match l with
  | [] => [x]
  | y :: l' => if le x y then x :: l else y :: insert_sorted le x l'
  end.

Fixpoint stable_sort {A : Type} (le : A -> A -> bool) (l : list A) : list A :=
  match l with
  | [] => []
  | x :: l' => insert_sorted le x (stable_sort le l')
  end.

(** [arr.sort()] on strings: code unit order. *)
Definition Array_sort_default (l : list string) : list string :=
  stable_sort String.leb l.

(** [arr.sort(comparefn)]. *)
Definition Array_sort {A : Type} (comparefn : A -> A -> Z) (l : list A)
  : list A :=
  stable_sort (fun x y => (comparefn x y <=? 0)%Z) l.

(** *** Plain objects used as dictionaries *)

(** The values that the tally object of [getDestinationName] can hold or
    yield: a number, a string that is not a numeric literal (the result of
    adding a number to an inherited function), a function or object inherited
    from [Object.prototype], or [undefined]. *)
Inductive JSValue : Type :=
| JSUndefined
| JSNumber (n : Z)
| JSText
| JSInherited.

(** Properties of [Object.prototype], visible through every object literal. *)
Definition Object_prototype : list string :=
  [ "constructor"; "hasOwnProperty"; "isPrototypeOf"; "propertyIsEnumerable";
    "toLocaleString"; "toString"; "valueOf"; "__proto__";
    "__defineGetter__"; "__defineSetter__"; "__lookupGetter__";
    "__lookupSetter__" ].

(** Own properties, in creation order. *)
Definition JSObject : Type := list (string * JSValue).

Fixpoint getOwn (o : JSObject) (k : string) : option JSValue :=
  match o with
  | [] => None
  | (k', v) :: o' => if String.eqb k' k then Some v else getOwn o' k
  end.

(** [o[k]] *)
Definition Get (o : JSObject) (k : string) : JSValue :=
  match getOwn o k with
  | Some v => v
  | None => if includes Object_prototype k then JSInherited else JSUndefined
  end.

Fixpoint defineOwn (o : JSObject) (k : string) (v : JSValue) : JSObject :=
  match o with
  | [] => [(k, v)]
  | (k', v') :: o' =>
      if String.eqb k' k then (k', v) :: o' else (k', v') :: defineOwn o' k v
  end.

(** [o[k] = v] for a number or string [v]: the inherited [__proto__] setter
    ignores such a value, every other key becomes or stays an own property. *)
Definition Put (o : JSObject) (k : string) (v : JSValue) : JSObject :=
  if String.eqb k "__proto__" then o else defineOwn o k v.

Definition is_digit (c : ascii) : bool :=
  (48 <=? nat_of_ascii c)%nat && (nat_of_ascii c <=? 57)%nat.

Fixpoint digits_value (s : string) (acc : N) : option N :=
  match s with
  | EmptyString => Some acc
  | String c s' =>
      if is_digit c
      then digits_value s' (acc * 10 + (N_of_ascii c - 48))%N
      else None
  end.

(** A key is an array index when it is the canonical decimal form of an
    integer below [2^32 - 1]. *)
Definition array_index (k : string) : option N :=
  match k with
  | EmptyString => None
  | String c s' =>
      if Ascii.eqb c "0"%char && negb (String.eqb s' EmptyString) then None
      else match digits_value k 0 with
           | Some n => if (n <=? 4294967294)%N then Some n else None
           | None => None
           end
  end.

Definition is_array_index (k : string) : bool :=
  match array_index k with Some _ => true | None => false end.

Definition index_le (a b : string * JSValue) : bool :=
  match array_index (fst a), array_index (fst b) with
  | Some i, Some j => (i <=? j)%N
  | _, _ => true
  end.

(** [Object.entries(o)]: array indices in ascending order first, then the
    other keys in creation order. *)
Definition Object_entries (o : JSObject) : list (string * JSValue) :=
  stable_sort index_le (filter (fun e => is_array_index (fst e)) o)
  ++ filter (fun e => negb (is_array_index (fst e))) o.

(** [(v || 0) + weight] *)
Definition or_zero_plus (v : JSValue) (weight : Z) : JSValue :=
  match v with
  | JSUndefined => JSNumber (0 + weight)
  | JSNumber n => JSNumber ((if truthy n then n else 0) + weight)
  | JSText => JSText
  | JSInherited => JSText
  end.

End JS.

(* ================================================================== *)
(** ** Records of the transit catalogue ([src/api.ts])                 *)
(* ================================================================== *)

Module Api.
Import JS.

Record Stop : Type := {
  stop_id : string;
  name : string;
  lat : string;
  lon : string
}.

Record PathEntry : Type := {
  stop : Stop;
  stop_sequence : Z
}.

Record ScheduleEntry : Type := {
  arrival_time : string;
  schedule_stop_id : string;
  schedule_stop_sequence : Z
}.

Record Trip : Type := {
  trip_id : string;
  dates : list string;
  schedule : list ScheduleEntry
}.

(** [short_name] is declared a string; the serializer and the renderers guard
    every use but one against its absence, so it is kept optional here
    ([None] is a pattern delivered without the property). *)
Record Pattern : Type := {
  id : string;
  line_id : string;
  route_id : string;
  short_name : option string;
  direction : Z;
  path : list PathEntry;
  shape_id : string;
  trips : list Trip
}.

(** [shape.geojson.geometry.coordinates]: pairs (longitude, latitude). *)
Record Shape (number : Type) : Type := {
  coordinates : list (number * number)
}.

(** An object is truthy. *)
#[global] Instance Truthy_Stop : Truthy Stop := fun _ => true.
#[global] Instance Truthy_ScheduleEntry : Truthy ScheduleEntry := fun _ => true.

End Api.

(* ================================================================== *)
(** ** Schedule view ([src/main.ts])                                   *)
(* ================================================================== *)

Module Main.
Import JS Api.

Record TripData : Type := {
  trip : Trip;
  pattern : Pattern;
  startTime : string
}.

(** [findClosestDate], lines 163-171.  Both index reads are in range under
    their guards, so the default of [nth] is never returned. *)
Definition findClosestDate (targetDate : string) (availableDates : list string)
  : string :=
  if (List.length availableDates =? 0)%nat then targetDate
  else
    let pastOrEqualDates :=
      filter (fun d => String.leb d targetDate) availableDates in
    if (0 <? List.length pastOrEqualDates)%nat
    then nth (List.length pastOrEqualDates - 1) pastOrEqualDates EmptyString
    else nth 0 availableDates EmptyString.

(** *** Direction labels: [getDestinationName], lines 253-279 *)

(** Body of [dirPatterns.forEach], lines 259-266. *)
Definition countVote (counts : JSObject) (p : Pattern) : result JSObject :=
  if truthy (path p) && (0 <? List.length (path p))%nat then
    lastStop <- prop (nth_error (path p) (List.length (path p) - 1))
                     (fun e => name (stop e)) ;;
    let weight :=
      if truthy (trips p) then Z.of_nat (List.length (trips p)) else 1%Z in
    Ok (Put counts lastStop (or_zero_plus (Get counts lastStop) weight))
  else Ok counts.

(** Body of the loop over [Object.entries(counts)], lines 271-276; the
    comparison of a non-number with [maxCount] is a comparison with NaN. *)
Definition pickBest (best : string * Z) (entry : string * JSValue)
  : string * Z :=
  let '(bestName, maxCount) := best in
  let '(name, count) := entry in
  match count with
  | JSNumber n => if (n >? maxCount)%Z then (name, n) else (bestName, maxCount)
  | _ => (bestName, maxCount)
  end.

Definition getDestinationName (state_patterns : list Pattern) (dir : Z)
  : result string :=
  let dirPatterns := filter (fun p => Z.eqb (direction p) dir) state_patterns in
  if (List.length dirPatterns =? 0)%nat
  then Ok (if Z.eqb dir 0 then "Ida" else "Volta")
  else
    counts <- forEach countVote dirPatterns [] ;;
    let bestName := if Z.eqb dir 0 then "Ida" else "Volta" in
    let maxCount := (-1)%Z in
    Ok (fst (fold_left pickBest (Object_entries counts) (bestName, maxCount))).

(** *** Service calendar: [getTripsForDate], lines 376-398 *)

(** Body of [pattern.trips.forEach], lines 380-395; the state is the local
    array [trips] and the set [availableDates] shared by all calls. *)
Definition visitTrip (state_direction : Z) (targetDate : string)
  (pattern : Pattern) (st : list TripData * list string) (trip : Trip)
  : result (list TripData * list string) :=
  let '(trips, availableDates) := st in
  trips' <-
    (if includes (dates trip) targetDate then
       let firstStop := nth_error (schedule trip) 0 in
       if truthy firstStop then
         startTime <- prop firstStop arrival_time ;;
         Ok (trips ++ [ {| trip := trip; pattern := pattern;
                           startTime := startTime |} ])
       else Ok trips
     else Ok trips) ;;
  let availableDates' :=
    if Z.eqb (direction pattern) state_direction
    then fold_left Set_add (dates trip) availableDates
    else availableDates in
  Ok (trips', availableDates').

(** Body of [state.patterns.forEach], lines 378-396. *)
Definition visitPattern (state_direction : Z) (targetDate : string)
  (st : list TripData * list string) (pattern : Pattern)
  : result (list TripData * list string) :=
  if negb (Z.eqb (direction pattern) state_direction) then Ok st
  else forEach (visitTrip state_direction targetDate pattern)
               (Api.trips pattern) st.

Definition getTripsForDate (state_patterns : list Pattern)
  (state_direction : Z) (targetDate : string) (availableDates : list string)
  : result (list TripData * list string) :=
  forEach (visitPattern state_direction targetDate) state_patterns
          ([], availableDates).

(** What [renderSchedules] computes in lines 400-412 and shows afterwards. *)
Record Itinerary : Type := {
  allTrips : list TripData;
  isFallback : bool;
  fallbackDateDisplay : string
}.

(** The resolution of [renderSchedules], lines 373-412, in schedule mode:
    the first pass, the choice of a fallback date and the second pass;
    [dateStr] is [state.date] without its dashes. *)
Definition resolveTrips (state_patterns : list Pattern) (state_direction : Z)
  (dateStr : string) : result Itinerary :=
  ' (allTrips, availableDates) <-
      getTripsForDate state_patterns state_direction dateStr [] ;;
  if (List.length allTrips =? 0)%nat && (0 <? List.length availableDates)%nat then
    let sortedDates := Array_sort_default availableDates in
    let fallbackDateStr := findClosestDate dateStr sortedDates in
    if negb (String.eqb fallbackDateStr dateStr) then
      ' (allTrips', _) <-
          getTripsForDate state_patterns state_direction fallbackDateStr
                          availableDates ;;
      Ok {| allTrips := allTrips';
            isFallback := true;
            fallbackDateDisplay :=
              (substring 0 4 fallbackDateStr ++ "-"
               ++ substring 4 2 fallbackDateStr ++ "-"
               ++ substring 6 2 fallbackDateStr)%string |}
    else
      Ok {| allTrips := allTrips; isFallback := false;
            fallbackDateDisplay := EmptyString |}
  else
    Ok {| allTrips := allTrips; isFallback := false;
          fallbackDateDisplay := EmptyString |}.

(** *** Trip ordering: line 439 *)

Section TripOrdering.

(** [String.prototype.localeCompare] of the host: negative, zero or positive. *)
Variable localeCompare : string -> string -> Z.

Definition sortTrips (allTrips : list TripData) : list TripData :=
  Array_sort (fun a b => localeCompare (startTime a) (startTime b)) allTrips.

End TripOrdering.

End Main.

(* ================================================================== *)
(** ** Track serializer ([src/gpx.ts])                                 *)
(* ================================================================== *)

Module Gpx.
Import JS Api.

Local Open Scope string_scope.

(** The double quote and the line feed of the string literals. *)
Definition dq : string := String (ascii_of_nat 34) EmptyString.
Definition nl : string := String (ascii_of_nat 10) EmptyString.

Section Serializer.

(** The coordinates of a shape and their Number-to-string conversion. *)
Variable number : Type.
Variable Number_toString : number -> string.

(** Body of [pattern.path.forEach], lines 26-33. *)
Definition appendWaypoint (gpx : string) (p : PathEntry) : string :=
  if truthy (stop p) && truthy (lat (stop p)) && truthy (lon (stop p)) then
    let gpx := gpx ++ "  <wpt lat=" ++ dq ++ lat (stop p) ++ dq
                   ++ " lon=" ++ dq ++ lon (stop p) ++ dq ++ ">" ++ nl in
    let gpx := gpx ++ "    <name>" ++ name (stop p) ++ "</name>" ++ nl in
    let gpx := gpx ++ "    <desc>Stop Sequence: "
                   ++ Z_toString (stop_sequence p) ++ "</desc>" ++ nl in
    gpx ++ "  </wpt>" ++ nl
  else gpx.

(** Body of the loop over [coords], lines 43-45: [lon] comes first in the
    pair and second in the element. *)
Definition appendTrackPoint (gpx : string) (c : number * number) : string :=
  let '(lon, lat) := c in
  gpx ++ "      <trkpt lat=" ++ dq ++ Number_toString lat ++ dq
      ++ " lon=" ++ dq ++ Number_toString lon ++ dq ++ "></trkpt>" ++ nl.

(** [createGPX], lines 16-52. *)
Definition createGPX (pattern : Pattern) (shape : Shape number)
  (includeStops : bool) : string :=
  let coords := coordinates shape in
  let gpx := "<?xml version=" ++ dq ++ "1.0" ++ dq
             ++ " encoding=" ++ dq ++ "UTF-8" ++ dq ++ "?>" ++ nl in
  let gpx := gpx ++ "<gpx version=" ++ dq ++ "1.1" ++ dq
                 ++ " creator=" ++ dq ++ "CarrisDriverApp" ++ dq
                 ++ " xmlns=" ++ dq ++ "http://www.topografix.com/GPX/1/1"
                 ++ dq ++ ">" ++ nl in
  let gpx := gpx ++ "  <metadata>" ++ nl ++ "    <name>"
                 ++ or_else (short_name pattern) (id pattern)
                 ++ "</name>" ++ nl ++ "  </metadata>" ++ nl in
  let gpx :=
    if includeStops && truthy (path pattern)
    then fold_left appendWaypoint (path pattern) gpx
    else gpx in
  let gpx := gpx ++ "  <trk>" ++ nl in
  let gpx := gpx ++ "    <name>" ++ template (short_name pattern) ++ " ("
                 ++ (if Z.eqb (direction pattern) 0 then "Ida" else "Volta")
                 ++ ")</name>" ++ nl in
  let gpx := gpx ++ "    <trkseg>" ++ nl in
  let gpx := fold_left appendTrackPoint coords gpx in
  let gpx := gpx ++ "    </trkseg>" ++ nl in
  let gpx := gpx ++ "  </trk>" ++ nl in
  let gpx := gpx ++ "</gpx>" in
  gpx.

End Serializer.

End Gpx.

(* ================================================================== *)
(** ** Vocabulary of the specification                                 *)
(* ================================================================== *)

Module Spec.
Import JS Api Main.

(** The patterns of a direction, in catalogue order. *)
Definition ofDirection (d : Z) (patterns : list Pattern) : list Pattern :=
  filter (fun p => Z.eqb (direction p) d) patterns.

(** *** Service calendar *)

(** The candidate set A: every service date of every trip of the direction. *)
Definition candidateDates (patterns : list Pattern) (d : Z) : list string :=
  flat_map (fun p => flat_map dates (trips p)) (ofDirection d patterns).

(** The trips of the direction that run on [date], each with its pattern. *)
Definition runningTrips (patterns : list Pattern) (d : Z) (date : string)
  : list (Trip * Pattern) :=
  flat_map
    (fun p => map (fun t => (t, p))
                  (filter (fun t => includes (dates t) date) (trips p)))
    (ofDirection d patterns).

(** A running trip paired with its schedule's first arrival time; a trip
    whose schedule is empty has none. *)
Definition withStartTime (tp : Trip * Pattern) : list TripData :=
  match schedule (fst tp) with
  | first :: _ =>
      [ {| trip := fst tp; pattern := snd tp;
           startTime := arrival_time first |} ]
  | [] => []
  end.

Definition scheduledTrips (patterns : list Pattern) (d : Z) (date : string)
  : list TripData :=
  flat_map withStartTime (runningTrips patterns d date).

(** [r] is the greatest date of [A] that is not after [t]. *)
Definition latestNotAfter (A : list string) (t r : string) : Prop :=
  In r A /\ String.leb r t = true
  /\ forall x, In x A -> String.leb x t = true -> String.leb x r = true.

(** [r] is the least date of [A]. *)
Definition earliest (A : list string) (r : string) : Prop :=
  In r A /\ forall x, In x A -> String.leb r x = true.

(** YYYYMMDD shown as YYYY-MM-DD. *)
Definition displayDate (d : string) : string :=
  (substring 0 4 d ++ "-" ++ substring 4 2 d ++ "-" ++ substring 6 2 d)%string.

Definition noItinerary : Itinerary :=
  {| allTrips := []; isFallback := false; fallbackDateDisplay := EmptyString |}.

(** *** Direction labels *)

(** The destination vote of a pattern: the name of the last stop of its path
    with the number of its trips; none for an empty path. *)
Definition voteOf (p : Pattern) : list (string * Z) :=
  match rev (path p) with
  | e :: _ => [ (name (stop e), Z.of_nat (List.length (trips p))) ]
  | [] => []
  end.

Definition votes (patterns : list Pattern) (d : Z) : list (string * Z) :=
  flat_map voteOf (ofDirection d patterns).

(** The weight the specification gives a vote: the number of trips, and 1
    for a pattern without trips. *)
Definition claimedWeight (p : Pattern) : Z :=
  if (List.length (trips p) =? 0)%nat then 1%Z
  else Z.of_nat (List.length (trips p)).

(** Accumulated weight of a name. *)
Fixpoint total (k : string) (vs : list (string * Z)) : Z :=
  match vs with
  | [] => 0%Z
  | (k', w) :: vs' =>
      if String.eqb k' k then (w + total k vs')%Z else total k vs'
  end.

(** The distinct names in first-encountered order. *)
Definition firstSeen (names : list string) : list string :=
  fold_left Set_add names [].

(** [n] is the first name, in first-encountered order, whose accumulated
    weight is the greatest. *)
Definition firstGreatest (vs : list (string * Z)) (n : string) : Prop :=
  exists before after,
    firstSeen (map fst vs) = before ++ n :: after
    /\ (forall m, In m before -> (total m vs < total n vs)%Z)
    /\ (forall m, In m after -> (total m vs <= total n vs)%Z).

(** The update of the tally object by one vote, and the tally object that
    holds the accumulated weight of each name. *)
Definition castVote (counts : JSObject) (v : string * Z) : JSObject :=
  Put counts (fst v) (or_zero_plus (Get counts (fst v)) (snd v)).

Definition tallyObject (vs : list (string * Z)) : JSObject :=
  map (fun k => (k, JSNumber (total k vs))) (firstSeen (map fst vs)).

Definition defaultLabel (d : Z) : string :=
  if Z.eqb d 0 then "Ida" else "Volta".

(** A name that the tally object treats like any other: no array index and
    no property of [Object.prototype]. *)
Definition ordinaryName (k : string) : bool :=
  negb (is_array_index k) && negb (includes Object_prototype k).

(** *** Trip ordering *)

(** A time of day written HH:MM:SS. *)
Definition isTime (s : string) : bool :=
  match list_ascii_of_string s with
  | [h1; h2; c1; m1; m2; c2; s1; s2] =>
      is_digit h1 && is_digit h2 && Ascii.eqb c1 ":"%char
      && is_digit m1 && is_digit m2 && Ascii.eqb c2 ":"%char
      && is_digit s1 && is_digit s2
  | _ => false
  end.

(** Start times do not decrease along the list. *)
Definition startTimeLe (a b : TripData) : Prop :=
  String.leb (startTime a) (startTime b) = true.

(** The triples that start at [t], in list order. *)
Definition startingAt (t : string) (l : list TripData) : list TripData :=
  filter (fun x => String.eqb (startTime x) t) l.

End Spec.

(* ================================================================== *)
(** ** Vocabulary of the track file format                             *)
(* ================================================================== *)

Module GpxSpec.
Import JS Api Gpx.

Local Open Scope string_scope.

(** The XML declaration and the opening tag of the document. *)
Definition xmlHeader : string :=
  "<?xml version=" ++ dq ++ "1.0" ++ dq ++ " encoding=" ++ dq ++ "UTF-8" ++ dq
  ++ "?>" ++ nl
  ++ "<gpx version=" ++ dq ++ "1.1" ++ dq ++ " creator=" ++ dq
  ++ "CarrisDriverApp" ++ dq ++ " xmlns=" ++ dq
  ++ "http://www.topografix.com/GPX/1/1" ++ dq ++ ">" ++ nl.

Definition metadataElement (nameText : string) : string :=
  "  <metadata>" ++ nl ++ "    <name>" ++ nameText ++ "</name>" ++ nl
  ++ "  </metadata>" ++ nl.

Definition waypointElement (p : PathEntry) : string :=
  "  <wpt lat=" ++ dq ++ lat (stop p) ++ dq ++ " lon=" ++ dq ++ lon (stop p)
  ++ dq ++ ">" ++ nl
  ++ "    <name>" ++ name (stop p) ++ "</name>" ++ nl
  ++ "    <desc>Stop Sequence: " ++ Z_toString (stop_sequence p) ++ "</desc>"
  ++ nl ++ "  </wpt>" ++ nl.

(** A stop has coordinates when neither is the empty string. *)
Definition hasCoordinates (p : PathEntry) : bool :=
  negb (String.eqb (lat (stop p)) EmptyString)
  && negb (String.eqb (lon (stop p)) EmptyString).

Definition joinAll (parts : list string) : string :=
  fold_right String.append EmptyString parts.

(** One waypoint per stop with coordinates, in path order, on request. *)
Definition waypoints (pattern : Pattern) (includeStops : bool) : string :=
  if includeStops
  then joinAll (map waypointElement (filter hasCoordinates (path pattern)))
  else EmptyString.

Definition trackOpening (nameText : string) : string :=
  "  <trk>" ++ nl ++ "    <name>" ++ nameText ++ "</name>" ++ nl
  ++ "    <trkseg>" ++ nl.

(** A track point element with its latitude and longitude as text. *)
Definition trackPoint (latText lonText : string) : string :=
  "      <trkpt lat=" ++ dq ++ latText ++ dq ++ " lon=" ++ dq ++ lonText ++ dq
  ++ "></trkpt>" ++ nl.

(** One track point per coordinate, in shape order; a coordinate is
    (longitude, latitude) and the element gives the latitude first. *)
Definition trackPoints (number : Type) (Number_toString : number -> string)
  (coords : list (number * number)) : list string :=
  map (fun c => trackPoint (Number_toString (snd c)) (Number_toString (fst c)))
      coords.

Definition trackClosing : string :=
  "    </trkseg>" ++ nl ++ "  </trk>" ++ nl ++ "</gpx>".

Definition directionName (pattern : Pattern) : string :=
  if Z.eqb (direction pattern) 0 then "Ida" else "Volta".

(** *** Counting elements in the text *)

Fixpoint startsWith (needle hay : string) : bool :=
  match needle, hay with
  | EmptyString, _ => true
  | String _ _, EmptyString => false
  | String a needle', String b hay' =>
      Ascii.eqb a b && startsWith needle' hay'
  end.

(** Number of positions of [hay] at which [needle] starts. *)
Fixpoint occurrences (needle hay : string) : nat :=
  match hay with
  | EmptyString => 0
  | String _ rest =>
      (if startsWith needle hay then 1 else 0) + occurrences needle rest
  end.

(** No opening angle bracket in the text. *)
Fixpoint markupFree (s : string) : bool :=
  match s with
  | EmptyString => true
  | String c rest => negb (Ascii.eqb c "<"%char) && markupFree rest
  end.

(** No end of [lit] is the beginning of a longer [needle]. *)
Fixpoint selfContained (needle lit : string) : bool :=
  match lit with
  | EmptyString => true
  | String _ rest =>
      (startsWith needle lit || negb (startsWith lit needle))
      && selfContained needle rest
  end.

(** The text of a document without waypoints around its two names. *)
Definition beforeMetadataName : string :=
  xmlHeader ++ "  <metadata>" ++ nl ++ "    <name>".

Definition betweenNames : string :=
  "</name>" ++ nl ++ "  </metadata>" ++ nl ++ "  <trk>" ++ nl ++ "    <name>".

Definition afterTrackName (dirName points : string) : string :=
  " (" ++ dirName ++ ")</name>" ++ nl ++ "    <trkseg>" ++ nl
  ++ points ++ trackClosing.

(** A shape of two coordinates. *)
Definition twoPoints (number : Type) (lon1 lat1 lon2 lat2 : number)
  : Shape number :=
  {| coordinates := [ (lon1, lat1); (lon2, lat2) ] |}.

(** The character [c] does not occur in [w]. *)
Fixpoint absent (c : ascii) (w : string) : bool :=
  match w with
  | EmptyString => true
  | String a rest => negb (Ascii.eqb a c) && absent c rest
  end.

(** The text [rest] does not begin with a character of [w]: it cannot
    complete a needle whose characters after the first are those of [w]. *)
Definition clearOf (w rest : string) : bool :=
  match rest with
  | EmptyString => true
  | String c _ => absent c w
  end.

End GpxSpec.

(* ================================================================== *)
(** ** Sample catalogue data                                           *)
(* ================================================================== *)

Module Samples.
Import JS Api Main.

Definition stopNamed (n : string) : Stop :=
  {| stop_id := "060001"; name := n; lat := "38.7"; lon := "-9.1" |}.

Definition pathTo (destination : string) : list PathEntry :=
  [ {| stop := stopNamed "Origem"; stop_sequence := 1 |};
    {| stop := stopNamed destination; stop_sequence := 2 |} ].

Definition arrival (t : string) : ScheduleEntry :=
  {| arrival_time := t; schedule_stop_id := "060001";
     schedule_stop_sequence := 1 |}.

Definition tripOn (i : string) (ds : list string) (times : list string) : Trip :=
  {| trip_id := i; dates := ds; schedule := map arrival times |}.

Definition patternOf (i : string) (d : Z) (stops : list PathEntry)
  (ts : list Trip) : Pattern :=
  {| id := i; line_id := "1001"; route_id := "1001_0";
     short_name := Some "Alfragide"; direction := d; path := stops;
     shape_id := "1001_0_1"; trips := ts |}.

(** Service on 1, 5 and 10 January 2024. *)
Definition january : list Pattern :=
  [ patternOf "1001_0_1" 0 (pathTo "Reboleira")
      [ tripOn "a" ["20240110"; "20240101"] ["08:00:00"; "08:10:00"];
        tripOn "b" ["20240105"] ["07:30:00"] ];
    patternOf "1001_0_2" 1 (pathTo "Alfragide")
      [ tripOn "c" ["20240103"] ["09:00:00"] ] ].

(** A trip that runs on 5 January and has no schedule. *)
Definition unscheduled : Trip := tripOn "u" ["20240105"] [].

Definition withUnscheduled : Pattern :=
  patternOf "1001_0_3" 0 (pathTo "Reboleira")
    [ tripOn "a" ["20240101"] ["08:00:00"]; unscheduled ].

(** Patterns A (2 trips, ends at X) and B (5 trips, ends at Y). *)
Definition someTrips (n : nat) : list Trip :=
  repeat (tripOn "t" ["20240101"] ["08:00:00"]) n.

Definition patternA : Pattern := patternOf "A" 0 (pathTo "X") (someTrips 2).
Definition patternB : Pattern := patternOf "B" 0 (pathTo "Y") (someTrips 5).

(** A pattern without trips, and one with a single trip. *)
Definition idle : Pattern := patternOf "I" 0 (pathTo "X") [].
Definition busy : Pattern := patternOf "J" 0 (pathTo "Y") (someTrips 1).

(** A pattern whose path is empty. *)
Definition pathless : Pattern := patternOf "E" 0 [] (someTrips 3).

(** Destinations whose names the tally object does not treat as ordinary
    keys. *)
Definition toConstructor : Pattern :=
  patternOf "K" 0 (pathTo "constructor") (someTrips 3).
Definition toB : Pattern := patternOf "L" 0 (pathTo "b") (someTrips 1).
Definition to7 : Pattern := patternOf "M" 0 (pathTo "7") (someTrips 1).

(** A host whose [localeCompare] is the code unit order, and departures with
    a tie at 08:00:00. *)
Definition codeUnitCompare (a b : string) : Z :=
  match String.compare a b with
  | Lt => (-1)%Z
  | Eq => 0%Z
  | Gt => 1%Z
  end.

Definition departure (i t : string) : TripData :=
  {| trip := tripOn i ["20240101"] [t]; pattern := patternA; startTime := t |}.

Definition departures : list TripData :=
  [ departure "d1" "08:00:00"; departure "d2" "25:10:00";
    departure "d3" "07:45:00"; departure "d4" "08:00:00" ].

(** A pattern delivered without [short_name]. *)
Definition unnamed (d : Z) : Pattern :=
  {| id := "1001_0_9"; line_id := "1001"; route_id := "1001_0";
     short_name := None; direction := d; path := pathTo "Reboleira";
     shape_id := "1001_0_9"; trips := [] |}.

(** A pattern whose [short_name] is the text of a track point element and
    of a waypoint element. *)
Definition markedUp : Pattern :=
  {| id := "1001_0_8"; line_id := "1001"; route_id := "1001_0";
     short_name :=
       Some ("<trkpt lat=" ++ Gpx.dq ++ "0" ++ Gpx.dq ++ " lon=" ++ Gpx.dq
             ++ "0" ++ Gpx.dq ++ "></trkpt><wpt lat=" ++ Gpx.dq ++ "0"
             ++ Gpx.dq ++ " lon=" ++ Gpx.dq ++ "0" ++ Gpx.dq
             ++ "></wpt>")%string;
     direction := 0; path := pathTo "Reboleira";
     shape_id := "1001_0_8"; trips := [] |}.

End Samples.

(* ================================================================== *)
(** ** The track file as literal text and fields                      *)
(* ================================================================== *)

Module GpxText.
Import JS Api Gpx GpxSpec.

Local Open Scope string_scope.

(** A piece of a document: text that the serializer writes itself, or the
    text of a field of its input. *)
Inductive Piece : Type :=
| Lit (text : string)
| Field (text : string).

Definition pieceText (p : Piece) : string :=
  match p with
  | Lit s => s
  | Field s => s
  end.

Definition render (pieces : list Piece) : string :=
  joinAll (map pieceText pieces).

(** The occurrences of [needle] inside the literal pieces. *)
Fixpoint literalCount (needle : string) (pieces : list Piece) : nat :=
  match pieces with
  | [] => 0
  | Lit s :: rest => occurrences needle s + literalCount needle rest
  | Field _ :: rest => literalCount needle rest
  end.

(** A literal that no occurrence of [needle] can straddle, or a field
    without an opening angle bracket. *)
Definition pieceOk (needle : string) (p : Piece) : bool :=
  match p with
  | Lit s => selfContained needle s
  | Field s => markupFree s
  end.

Definition waypointPieces (e : PathEntry) : list Piece :=
  [ Lit ("  <wpt lat=" ++ dq); Field (lat (stop e));
    Lit (dq ++ " lon=" ++ dq); Field (lon (stop e));
    Lit (dq ++ ">" ++ nl ++ "    <name>"); Field (name (stop e));
    Lit ("</name>" ++ nl ++ "    <desc>Stop Sequence: ");
    Field (Z_toString (stop_sequence e));
    Lit ("</desc>" ++ nl ++ "  </wpt>" ++ nl) ].

Definition pointPieces (number : Type) (Number_toString : number -> string)
  (c : number * number) : list Piece :=
  [ Lit ("      <trkpt lat=" ++ dq); Field (Number_toString (snd c));
    Lit (dq ++ " lon=" ++ dq); Field (Number_toString (fst c));
    Lit (dq ++ "></trkpt>" ++ nl) ].

Definition documentPieces (number : Type) (Number_toString : number -> string)
  (pattern : Pattern) (shape : Shape number) (includeStops : bool)
  : list Piece :=
  ([ Lit beforeMetadataName;
     Field (or_else (short_name pattern) (id pattern));
     Lit ("</name>" ++ nl ++ "  </metadata>" ++ nl) ]
   ++ (if includeStops
       then flat_map waypointPieces (filter hasCoordinates (path pattern))
       else [])
   ++ [ Lit ("  <trk>" ++ nl ++ "    <name>");
        Field (template (short_name pattern));
        Lit " ("; Field (directionName pattern);
        Lit (")</name>" ++ nl ++ "    <trkseg>" ++ nl) ]
   ++ flat_map (pointPieces Number_toString) (coordinates shape)
   ++ [ Lit trackClosing ])%list.

(** Every literal that the serializer writes. *)
Definition documentLiterals : list string :=
  [ beforeMetadataName; "</name>" ++ nl ++ "  </metadata>" ++ nl;
    "  <trk>" ++ nl ++ "    <name>"; " (";
    ")</name>" ++ nl ++ "    <trkseg>" ++ nl; trackClosing;
    "  <wpt lat=" ++ dq; dq ++ " lon=" ++ dq;
    dq ++ ">" ++ nl ++ "    <name>";
    "</name>" ++ nl ++ "    <desc>Stop Sequence: ";
    "</desc>" ++ nl ++ "  </wpt>" ++ nl;
    "      <trkpt lat=" ++ dq; dq ++ "></trkpt>" ++ nl ].

(** The fields of a stop that a waypoint prints. *)
Definition stopMarkupFree (e : PathEntry) : bool :=
  markupFree (lat (stop e)) && markupFree (lon (stop e))
  && markupFree (name (stop e)).

Definition pointMarkupFree (number : Type) (Number_toString : number -> string)
  (c : number * number) : bool :=
  markupFree (Number_toString (fst c)) && markupFree (Number_toString (snd c)).

End GpxText.


(* ================================================================== *)
(** ** Dates and cards of the schedule view ([src/main.ts])            *)
(* ================================================================== *)

Module MainView.
Import JS Api Main.

(** [s.replace(/-/g, '')] *)
Fixpoint removeDashes (s : string) : string :=
  match s with
  | EmptyString => EmptyString
  | String c rest =>
      if Ascii.eqb c "-"%char then removeDashes rest
      else String c (removeDashes rest)
  end.

(** [dateStr], line 373. *)
Definition dateStr (state_date : string) : string := removeDashes state_date.

Definition notDash (c : ascii) : bool := negb (Ascii.eqb c "-"%char).

(** Eight characters without a dash, as YYYYMMDD. *)
Definition isCompactDate (d : string) : bool :=
  match list_ascii_of_string d with
  | [y1; y2; y3; y4; m1; m2; d1; d2] =>
      forallb notDash [y1; y2; y3; y4; m1; m2; d1; d2]
  | _ => false
  end.

(** Ten characters with dashes in the fifth and eighth place only, as
    YYYY-MM-DD. *)
Definition isDashedDate (s : string) : bool :=
  match list_ascii_of_string s with
  | [y1; y2; y3; y4; s1; m1; m2; s2; d1; d2] =>
      forallb notDash [y1; y2; y3; y4; m1; m2; d1; d2]
      && Ascii.eqb s1 "-"%char && Ascii.eqb s2 "-"%char
  | _ => false
  end.

End MainView.


(* ================================================================== *)
(** ** Catalogue client ([src/api.ts])                                 *)
(* ================================================================== *)

Module Catalog.
Import JS Api.

Record Line : Type := {
  Line_id : string;
  Line_short_name : string;
  long_name : string;
  color : string;
  text_color : string;
  Line_patterns : list string
}.

#[global] Instance Truthy_Line : Truthy Line := fun _ => true.

(** What [fetch] resolves with: the status flag and the outcome of parsing
    the body as a value of the expected type. *)
Record Response (A : Type) : Type := {
  ok : bool;
  json : result A
}.

Definition API_BASE : string := "https://api.carrismetropolitana.pt".

(** [try { ... } catch (error) { ... }] around a computation. *)
Definition try_catch {A : Type} (body : result A) (handler : string -> A) : A :=
  match body with
  | Ok a => a
  | Throw e => handler e
  end.

(** [Promise.all]: the values in order, or a rejection when one rejects. *)
Fixpoint Promise_all {A : Type} (promises : list (result A)) : result (list A) :=
  match promises with
  | [] => Ok []
  | p :: rest => a <- p ;; l <- Promise_all rest ;; Ok (a :: l)
  end.

(** [results.filter(p => p !== null)] *)
Definition nonNull {A : Type} (results : list (option A)) : list A :=
  flat_map (fun r => match r with Some a => [a] | None => [] end) results.

Section Client.

Variable number : Type.

(** The network, by URL: a rejected request, or a response. *)
Variable fetch_lines : string -> result (Response (list Line)).
Variable fetch_shape : string -> result (Response (Shape number)).
Variable fetch_pattern : string -> result (Response Pattern).

(** [fetchLines], lines 50-59. *)
Definition fetchLines : list Line :=
  try_catch
    (response <- fetch_lines (API_BASE ++ "/lines")%string ;;
     if negb (ok response) then Throw "Failed to fetch lines"
     else json response)
    (fun _ => []).

(** [fetchShape], lines 61-70; [None] is [null]. *)
Definition fetchShape (shapeId : string) : option (Shape number) :=
  try_catch
    (response <- fetch_shape (API_BASE ++ "/shapes/" ++ shapeId)%string ;;
     if negb (ok response) then Ok None
     else shape <- json response ;; Ok (Some shape))
    (fun _ => None).

(** The callback of [patternIds.map], lines 74-78. *)
Definition fetchPattern (id : string) : result (option Pattern) :=
  response <- fetch_pattern (API_BASE ++ "/patterns/" ++ id)%string ;;
  if negb (ok response) then Ok None
  else p <- json response ;; Ok (Some p).

(** [fetchPatterns], lines 72-86. *)
Definition fetchPatterns (patternIds : list string) : list Pattern :=
  try_catch
    (let promises := map fetchPattern patternIds in
     results <- Promise_all promises ;;
     Ok (nonNull results))
    (fun _ => []).

(** The request for a pattern is rejected: the network fails, or the body of
    a response with a good status does not parse. *)
Definition rejected (id : string) : bool :=
  match fetchPattern id with
  | Throw _ => true
  | Ok _ => false
  end.

(** The pattern that a request delivers, if it delivers one. *)
Definition delivered (id : string) : list Pattern :=
  match fetchPattern id with
  | Ok (Some p) => [p]
  | _ => []
  end.

End Client.

End Catalog.


(* ================================================================== *)
(** ** Selection state and its handlers ([src/main.ts], [src/gpx.ts])  *)
(* ================================================================== *)

(** The handlers of [src/main.ts] as functions on the state they share.  A
    handler is taken to run to its end before the next event is handled; the
    answers of the catalogue client during a run are parameters; of the page,
    the query of the address and the visibility of the download section are
    kept, and what is drawn is not. *)
Module App.
Import JS Api Catalog.

Inductive ViewMode : Type :=
| schedule_mode
| pattern_mode.

(** The two parameters of the address that the application reads, as
    [URLSearchParams.get] returns them ([None] is [null]). *)
Record Query : Type := {
  line : option string;
  active_pattern_id : option string
}.



Section Handlers.

Variable number : Type.
Variable Number_toString : number -> string.

(** The answers of [fetchLines], [fetchPatterns] and [fetchShape]. *)
Variable fetchLines : list Line.
Variable fetchPatterns : list string -> list Pattern.
Variable fetchShape : string -> option (Shape number).

(** [state], lines 13-24. *)
Record State : Type := {
  lines : list Line;
  selectedLine : option Line;
  selectedPattern : option Pattern;
  selectedShape : option (Shape number);
  selectedTrip : option Trip;
  patterns : list Pattern;
  date : string;
  time : string;
  direction : Z;
  viewMode : ViewMode
}.

Record Page : Type := {
  state : State;
  search : Query;
  downloadSection_shown : bool
}.

(** Assignments to the fields of [state]. *)
Definition set_lines (s : State) (v : list Line) : State :=
  {| lines := v; selectedLine := selectedLine s;
     selectedPattern := selectedPattern s; selectedShape := selectedShape s;
     selectedTrip := selectedTrip s; patterns := patterns s; date := date s;
     time := time s; direction := direction s; viewMode := viewMode s |}.

Definition set_selectedLine (s : State) (v : option Line) : State :=
  {| lines := lines s; selectedLine := v;
     selectedPattern := selectedPattern s; selectedShape := selectedShape s;
     selectedTrip := selectedTrip s; patterns := patterns s; date := date s;
     time := time s; direction := direction s; viewMode := viewMode s |}.

Definition set_selectedPattern (s : State) (v : option Pattern) : State :=
  {| lines := lines s; selectedLine := selectedLine s;
     selectedPattern := v; selectedShape := selectedShape s;
     selectedTrip := selectedTrip s; patterns := patterns s; date := date s;
     time := time s; direction := direction s; viewMode := viewMode s |}.

Definition set_selectedShape (s : State) (v : option (Shape number)) : State :=
  {| lines := lines s; selectedLine := selectedLine s;
     selectedPattern := selectedPattern s; selectedShape := v;
     selectedTrip := selectedTrip s; patterns := patterns s; date := date s;
     time := time s; direction := direction s; viewMode := viewMode s |}.

Definition set_selectedTrip (s : State) (v : option Trip) : State :=
  {| lines := lines s; selectedLine := selectedLine s;
     selectedPattern := selectedPattern s; selectedShape := selectedShape s;
     selectedTrip := v; patterns := patterns s; date := date s;
     time := time s; direction := direction s; viewMode := viewMode s |}.

Definition set_patterns (s : State) (v : list Pattern) : State :=
  {| lines := lines s; selectedLine := selectedLine s;
     selectedPattern := selectedPattern s; selectedShape := selectedShape s;
     selectedTrip := selectedTrip s; patterns := v; date := date s;
     time := time s; direction := direction s; viewMode := viewMode s |}.

Definition set_date (s : State) (v : string) : State :=
  {| lines := lines s; selectedLine := selectedLine s;
     selectedPattern := selectedPattern s; selectedShape := selectedShape s;
     selectedTrip := selectedTrip s; patterns := patterns s; date := v;
     time := time s; direction := direction s; viewMode := viewMode s |}.

Definition set_direction (s : State) (v : Z) : State :=
  {| lines := lines s; selectedLine := selectedLine s;
     selectedPattern := selectedPattern s; selectedShape := selectedShape s;
     selectedTrip := selectedTrip s; patterns := patterns s; date := date s;
     time := time s; direction := v; viewMode := viewMode s |}.

Definition set_viewMode (s : State) (v : ViewMode) : State :=
  {| lines := lines s; selectedLine := selectedLine s;
     selectedPattern := selectedPattern s; selectedShape := selectedShape s;
     selectedTrip := selectedTrip s; patterns := patterns s; date := date s;
     time := time s; direction := direction s; viewMode := v |}.

Definition with_state (p : Page) (s : State) : Page :=
  {| state := s; search := search p;
     downloadSection_shown := downloadSection_shown p |}.

Definition with_search (p : Page) (q : Query) : Page :=
  {| state := state p; search := q;
     downloadSection_shown := downloadSection_shown p |}.

Definition with_downloadSection (p : Page) (shown : bool) : Page :=
  {| state := state p; search := search p; downloadSection_shown := shown |}.

(** [updateURL], lines 151-161: the query that the new address carries. *)
Definition updateURL (lineId patternId : option string) : Query :=
  {| line := if truthy lineId then lineId else None;
     active_pattern_id := if truthy patternId then patternId else None |}.

(** [loadLines], lines 173-178. *)
Definition loadLines (p : Page) : Page :=
  with_state p (set_lines (state p) fetchLines).

(** [selectLine], lines 204-218. *)
Definition selectLine (p : Page) (l : Line) (updateUrl : bool) : Page :=
  let s := set_selectedLine (state p) (Some l) in
  let s := set_selectedPattern s None in
  let s := set_selectedTrip s None in
  let s := set_selectedShape s None in
  let s := set_direction s 0 in
  let p := with_downloadSection (with_state p s) false in
  let s := set_patterns (state p) (fetchPatterns (Line_patterns l)) in
  let p := with_state p s in
  if updateUrl
  then with_search p (updateURL (Some (Line_short_name l)) None)
  else p.

(** The end shared by [selectTrip], lines 483-492, and by the click on a
    pattern card, lines 533-540: the shape is fetched and kept if there is
    one. *)
Definition showShape (p : Page) (shape_id : string) : Page :=
  match fetchShape shape_id with
  | Some shape =>
      with_downloadSection
        (with_state p (set_selectedShape (state p) (Some shape))) true
  | None => p
  end.

(** [selectTrip], lines 468-493. *)
Definition selectTrip (p : Page) (data : Main.TripData) (updateUrl : bool)
  : Page :=
  let s := set_selectedTrip (state p) (Some (Main.trip data)) in
  let s := set_selectedPattern s (Some (Main.pattern data)) in
  let p := with_state p s in
  let p :=
    if updateUrl
    then with_search p
           (updateURL (option_map Line_short_name (selectedLine (state p)))
                      (Some (id (Main.pattern data))))
    else p in
  showShape p (shape_id (Main.pattern data)).

(** The click on a pattern card, lines 523-541. *)
Definition patternCardClick (p : Page) (pattern : Pattern) : Page :=
  let s := set_selectedPattern (state p) (Some pattern) in
  let s := set_selectedTrip s None in
  let p := with_state p s in
  let p :=
    with_search p
      (updateURL (option_map Line_short_name (selectedLine (state p)))
                 (Some (id pattern))) in
  showShape p (shape_id pattern).

(** The click on the back button, lines 229-235. *)
Definition backClick (p : Page) : Page :=
  let p := with_state p (set_selectedLine (state p) None) in
  let p := loadLines p in
  let p := with_downloadSection p false in
  with_search p (updateURL None None).

(** The trip that [handleStartup] selects for a pattern, lines 120-126. *)
Definition firstTripData (pattern : Pattern) : option Main.TripData :=
  match nth_error (trips pattern) 0 with
  | Some trip =>
      Some {| Main.trip := trip; Main.pattern := pattern;
              Main.startTime :=
                or_else (option_map arrival_time (nth_error (schedule trip) 0))
                        "00:00:00" |}
  | None => None
  end.

(** [handleStartup], lines 90-148. *)
Definition handleStartup (p : Page) : Page :=
  let lineId := line (search p) in
  let patternId := active_pattern_id (search p) in
  let p := if (List.length (lines (state p)) =? 0)%nat then loadLines p else p in
  match (if truthy lineId then lineId else None) with
  | Some lineId =>
      match find (fun l => String.eqb (Line_short_name l) lineId
                           || String.eqb (Line_id l) lineId)
                 (lines (state p)) with
      | Some l =>
          let p :=
            match selectedLine (state p) with
            | Some selected =>
                if negb (String.eqb (Line_id selected) (Line_id l))
                then selectLine p l false else p
            | None => selectLine p l false
            end in
          match (if truthy patternId then patternId else None) with
          | Some patternId =>
              match find (fun q => String.eqb (id q) patternId)
                         (patterns (state p)) with
              | Some pattern =>
                  match firstTripData pattern with
                  | Some tripData =>
                      let p :=
                        if negb (Z.eqb (Api.direction pattern)
                                       (direction (state p)))
                        then with_state p
                               (set_direction (state p) (Api.direction pattern))
                        else p in
                      selectTrip p tripData false
                  | None => p
                  end
              | None => p
              end
          | None => p
          end
      | None =>
          if truthy (selectedLine (state p)) then
            let p := with_state p (set_selectedLine (state p) None) in
            let p := loadLines p in
            with_downloadSection p false
          else p
      end
  | None => p
  end.



(** What the user and the browser do. *)
Inductive Event : Type :=
| Navigate (q : Query)
| LineClick (l : Line)
| BackClick
| IdaClick
| VoltaClick
| ModeClick (m : ViewMode)
| TripClick (item : Main.TripData)
| PatternClick (pattern : Pattern)
| DateChange (value : string)
| DownloadClick (includeStops : bool).

Definition step (p : Page) (e : Event) : Page :=
  match e with
  | Navigate q => handleStartup (with_search p q)
  | LineClick l => selectLine p l true
  | BackClick => backClick p
  | IdaClick => with_state p (set_direction (state p) 0)
  | VoltaClick => with_state p (set_direction (state p) 1)
  | ModeClick m => with_state p (set_viewMode (state p) m)
  | TripClick item => selectTrip p item true
  | PatternClick pattern => patternCardClick p pattern
  | DateChange value => with_state p (set_date (state p) value)
  | DownloadClick _ => p
  end.

(** The cards that can be clicked: the lines of the list, the trips of the
    itinerary of the current direction and date, the patterns of the current
    direction. *)
Definition enabled (p : Page) (e : Event) : Prop :=
  match e with
  | LineClick l => In l (lines (state p))
  | TripClick item =>
      exists it,
        Main.resolveTrips (patterns (state p)) (direction (state p))
          (MainView.dateStr (date (state p))) = Ok it
        /\ In item (Main.allTrips it)
  | PatternClick pattern =>
      In pattern
         (filter (fun q => Z.eqb (Api.direction q) (direction (state p)))
                 (patterns (state p)))
  | _ => True
  end.

(** The page when the module is loaded, before [init] runs. *)
Definition initialPage (today now : string) (q : Query) (shown : bool) : Page :=
  {| state :=
       {| lines := []; selectedLine := None; selectedPattern := None;
          selectedShape := None; selectedTrip := None; patterns := [];
          date := today; time := now; direction := 0;
          viewMode := pattern_mode |};
     search := q;
     downloadSection_shown := shown |}.

(** The selection is coherent: the selected trip is a trip of the selected
    pattern, the selected pattern is one of the loaded patterns, and a shape
    is selected only together with a pattern. *)
Definition coherent (p : Page) : Prop :=
  (forall t, selectedTrip (state p) = Some t ->
             exists q, selectedPattern (state p) = Some q /\ In t (trips q))
  /\ (forall q, selectedPattern (state p) = Some q ->
                In q (patterns (state p)))
  /\ (forall s, selectedShape (state p) = Some s ->
                selectedPattern (state p) <> None).

End Handlers.

(** The pages that the application goes through: [init] runs
    [handleStartup], then events follow; every run of a handler meets the
    answers that the network gives at its time. *)
Inductive reachable (number : Type) : Page number -> Prop :=
| reachable_init (fetchLines : list Line)
    (fetchPatterns : list string -> list Pattern)
    (fetchShape : string -> option (Shape number))
    (today now : string) (q : Query) (shown : bool) :
    reachable (handleStartup fetchLines fetchPatterns fetchShape
                 (initialPage number today now q shown))
| reachable_step (fetchLines : list Line)
    (fetchPatterns : list string -> list Pattern)
    (fetchShape : string -> option (Shape number))
    (p : Page number) (e : Event) :
    reachable p -> enabled p e ->
    reachable (step fetchLines fetchPatterns fetchShape p e).

End App.


(* ================================================================== *)
(** ** List of lines and cards ([src/main.ts])                         *)
(* ================================================================== *)

Module LineList.
Import JS Api Catalog.

(** [hay.includes(needle)] on strings. *)
Fixpoint String_includes (hay needle : string) : bool :=
  GpxSpec.startsWith needle hay
  || match hay with
     | EmptyString => false
     | String _ rest => String_includes rest needle
     end.

(** What [renderLines] puts in the list. *)
Inductive Rendered : Type :=
| emptyState
| cards (displayLines : list Line).

(** [renderLines], lines 180-202; [searchInput_value] is the text of the
    search box. *)
Definition renderLines (searchInput_value : string) (lines : list Line)
  : Rendered :=
  if (List.length lines =? 0)%nat then emptyState
  else cards (if truthy searchInput_value then lines else firstn 50 lines).

Section Search.

(** [String.prototype.toLowerCase] of the host. *)
Variable toLowerCase : string -> string.

(** The test of the filter, lines 55-56. *)
Definition matches (query : string) (l : Line) : bool :=
  String_includes (toLowerCase (Line_short_name l)) query
  || String_includes (toLowerCase (long_name l)) query.

(** The listener of the search box, lines 52-58. *)
Definition searchInput (state_lines : list Line) (value : string) : Rendered :=
  let query := toLowerCase value in
  renderLines value (filter (matches query) state_lines).

End Search.

(** The headline of a trip card, lines 451-452, and of a pattern card,
    line 513. *)
Definition tripHeadsign (item : Main.TripData) : string :=
  let direction :=
    if Z.eqb (direction (Main.pattern item)) 0 then "Ida" else "Volta" in
  or_else (short_name (Main.pattern item)) direction.

Definition patternHeadsign (state_direction : Z) (pattern : Pattern) : string :=
  or_else (short_name pattern)
          (if Z.eqb state_direction 0 then "Ida" else "Volta").

End LineList.


(* ================================================================== *)
(** ** A sample network                                                *)
(* ================================================================== *)

Module Network.
Import JS Api Main Catalog Samples.

Definition line1001 : Line :=
  {| Line_id := "1001"; Line_short_name := "1001";
     long_name := "Alfragide - Reboleira"; color := "#ED1944";
     text_color := "#FFFFFF";
     Line_patterns := ["1001_0_1"; "1001_0_2"] |}.

Definition line1704 : Line :=
  {| Line_id := "1704"; Line_short_name := "1704";
     long_name := "Amadora - Belas"; color := "#3D85C6";
     text_color := "#FFFFFF"; Line_patterns := [] |}.

Definition allLines : list Line := [line1001; line1704].

(** The patterns of [january] by identifier. *)
Definition patternsOf (ids : list string) : list Pattern :=
  filter (fun q => includes ids (id q)) january.

Definition track : Shape string :=
  {| coordinates := [("-9.1", "38.7"); ("-9.2", "38.8"); ("-9.3", "38.9")] |}.

Definition shapeOf (shape_id : string) : option (Shape string) :=
  if String.eqb shape_id "1001_0_1" then Some track else None.

(** The second pattern of [january] and its only trip. *)
Definition volta : Pattern :=
  patternOf "1001_0_2" 1 (pathTo "Alfragide")
    [ tripOn "c" ["20240103"] ["09:00:00"] ].

Definition tripC : Trip := tripOn "c" ["20240103"] ["09:00:00"].

Definition cardC : TripData :=
  {| trip := tripC; pattern := volta; startTime := "09:00:00" |}.

(** The first pattern of [january], its first trip and the card of its
    second trip. *)
Definition ida : Pattern :=
  patternOf "1001_0_1" 0 (pathTo "Reboleira")
    [ tripOn "a" ["20240110"; "20240101"] ["08:00:00"; "08:10:00"];
      tripOn "b" ["20240105"] ["07:30:00"] ].

Definition tripA : Trip :=
  tripOn "a" ["20240110"; "20240101"] ["08:00:00"; "08:10:00"].

Definition cardB : TripData :=
  {| trip := tripOn "b" ["20240105"] ["07:30:00"]; pattern := ida;
     startTime := "07:30:00" |}.

(** A pattern endpoint that delivers A, answers 404 for B and fails for
    every other identifier. *)
Definition patternEndpoint (url : string) : result (Response Pattern) :=
  if String.eqb url "https://api.carrismetropolitana.pt/patterns/A"
  then Ok {| ok := true; json := Ok patternA |}
  else if String.eqb url "https://api.carrismetropolitana.pt/patterns/B"
  then Ok {| ok := false; json := Throw "SyntaxError: Unexpected token" |}
  else Throw "TypeError: Failed to fetch".

(** A path whose second stop has no longitude. *)
Definition halfLocated : Pattern :=
  patternOf "H" 0
    [ {| stop := stopNamed "Origem"; stop_sequence := 1 |};
      {| stop := {| stop_id := "060002"; name := "Meio"; lat := "38.7";
                    lon := EmptyString |};
         stop_sequence := 2 |};
      {| stop := stopNamed "Destino"; stop_sequence := 3 |} ]
    (someTrips 1).

(** Lower case of the letters A to Z. *)
Definition lowerAscii (c : ascii) : ascii :=
  let n := nat_of_ascii c in
  if ((65 <=? n) && (n <=? 90))%nat then ascii_of_nat (n + 32) else c.

Fixpoint lower (s : string) : string :=
  match s with
  | EmptyString => EmptyString
  | String c rest => String (lowerAscii c) (lower rest)
  end.

(** A page on which line 1001 is selected. *)
Definition onLine1001 (q : App.Query) : App.Page string :=
  {| App.state :=
       {| App.lines := allLines; App.selectedLine := Some line1001;
          App.selectedPattern := Some volta; App.selectedShape := Some track;
          App.selectedTrip := Some tripC; App.patterns := january;
          App.date := "2024-01-05"; App.time := "08:00";
          App.direction := 1; App.viewMode := App.schedule_mode |};
     App.search := q;
     App.downloadSection_shown := true |}.


End Network.

(* ================================================================== *)
(** ** Code unit order on strings                                      *)
(* ================================================================== *)

Import JS Api Main Spec.

Unset Implicit Arguments.

Lemma ascii_compare_refl (c : ascii) : Ascii.compare c c = Eq.
Proof. unfold Ascii.compare. apply N.compare_refl. Qed.

Lemma string_compare_refl (s : string) : String.compare s s = Eq.
Proof.
  induction s as [|c s IH]; simpl; [reflexivity|].
  now rewrite ascii_compare_refl.
Qed.

Lemma string_compare_lt_trans (a b c : string) :
  String.compare a b = Lt -> String.compare b c = Lt ->
  String.compare a c = Lt.
Proof.
  revert b c.
  induction a as [|x a IH]; intros [|y b] [|z c]; simpl; try congruence.
  unfold Ascii.compare.
  destruct (N.compare_spec (N_of_ascii x) (N_of_ascii y)) as [Exy|Lxy|Gxy];
    try discriminate;
    destruct (N.compare_spec (N_of_ascii y) (N_of_ascii z)) as [Eyz|Lyz|Gyz];
    try discriminate; intros Hab Hbc.
  - rewrite Exy, Eyz, N.compare_refl. eauto.
  - rewrite Exy. now apply N.compare_lt_iff in Lyz as ->.
  - rewrite <- Eyz. now apply N.compare_lt_iff in Lxy as ->.
  - assert (H : (N_of_ascii x < N_of_ascii z)%N) by lia.
    now apply N.compare_lt_iff in H as ->.
Qed.

Lemma string_leb_refl (s : string) : String.leb s s = true.
Proof. unfold String.leb. now rewrite string_compare_refl. Qed.

Lemma string_leb_trans (a b c : string) :
  String.leb a b = true -> String.leb b c = true -> String.leb a c = true.
Proof.
  unfold String.leb.
  destruct (String.compare a b) eqn:Hab; try discriminate;
    destruct (String.compare b c) eqn:Hbc; try discriminate; intros _ _.
  - apply String.compare_eq_iff in Hab, Hbc. subst.
    now rewrite string_compare_refl.
  - apply String.compare_eq_iff in Hab. subst. now rewrite Hbc.
  - apply String.compare_eq_iff in Hbc. subst. now rewrite Hab.
  - now rewrite (string_compare_lt_trans _ _ _ Hab Hbc).
Qed.

Lemma string_leb_false (a b : string) :
  String.leb a b = false -> String.leb b a = true.
Proof.
  intros H. destruct (String.leb_total a b) as [H'|H']; congruence.
Qed.

Lemma includes_In (l : list string) (x : string) :
  includes l x = true <-> In x l.
Proof.
  unfold includes. rewrite existsb_exists. split.
  - intros (y & Hy & E). apply String.eqb_eq in E. now subst.
  - intros H. exists x. split; [assumption|apply String.eqb_refl].
Qed.

Lemma includes_false (l : list string) (x : string) :
  includes l x = false <-> ~ In x l.
Proof.
  rewrite <- includes_In. destruct (includes l x); split; congruence.
Qed.

(* ================================================================== *)
(** ** The stable sort                                                 *)
(* ================================================================== *)

Section StableSort.

Variable A : Type.
Variable le : A -> A -> bool.

Lemma insert_sorted_perm (x : A) (l : list A) :
  Permutation (x :: l) (insert_sorted le x l).
Proof.
  induction l as [|y l IH]; simpl; [reflexivity|].
  destruct (le x y); [reflexivity|].
  rewrite perm_swap. now constructor.
Qed.

Lemma stable_sort_perm (l : list A) : Permutation l (stable_sort le l).
Proof.
  induction l as [|x l IH]; simpl; [reflexivity|].
  rewrite <- insert_sorted_perm. now constructor.
Qed.

Hypothesis le_total : forall x y, le x y = false -> le y x = true.
Hypothesis le_trans :
  forall x y z, le x y = true -> le y z = true -> le x z = true.

Lemma insert_sorted_sorted (x : A) (l : list A) :
  StronglySorted (fun a b => le a b = true) l ->
  StronglySorted (fun a b => le a b = true) (insert_sorted le x l).
Proof.
  induction 1 as [|y l Hl IH Hy]; simpl.
  - repeat constructor.
  - destruct (le x y) eqn:Hxy.
    + constructor; [now constructor|].
      constructor; [assumption|].
      rewrite Forall_forall in Hy |- *. eauto.
    + constructor; [assumption|].
      rewrite <- insert_sorted_perm. constructor; auto.
Qed.

Lemma stable_sort_sorted (l : list A) :
  StronglySorted (fun a b => le a b = true) (stable_sort le l).
Proof.
  induction l as [|x l IH]; simpl; [constructor|].
  now apply insert_sorted_sorted.
Qed.

(** A class of equivalent elements keeps its order. *)
Lemma insert_sorted_stable (f : A -> bool) (x : A) (l : list A) :
  (forall y, f x = true -> f y = true -> le x y = true) ->
  filter f (insert_sorted le x l) = filter f (x :: l).
Proof.
  intros Hf. induction l as [|y l IH]; [reflexivity|].
  simpl. destruct (le x y) eqn:Hxy; [reflexivity|].
  simpl. rewrite IH. simpl.
  destruct (f x) eqn:Hx; [|reflexivity].
  destruct (f y) eqn:Hy; [|reflexivity].
  rewrite (Hf y) in Hxy; [discriminate|reflexivity|assumption].
Qed.

Lemma stable_sort_stable (f : A -> bool) (l : list A) :
  (forall x y, f x = true -> f y = true -> le x y = true) ->
  filter f (stable_sort le l) = filter f l.
Proof.
  intros Hf. induction l as [|x l IH]; [reflexivity|].
  simpl stable_sort. rewrite insert_sorted_stable by (intros; now apply Hf).
  simpl. now rewrite IH.
Qed.

End StableSort.

(** Two orders that agree on the elements of a list sort it alike. *)
Lemma insert_sorted_ext (A : Type) (le le' : A -> A -> bool) (x : A)
  (l : list A) :
  (forall y, In y l -> le x y = le' x y) ->
  insert_sorted le x l = insert_sorted le' x l.
Proof.
  induction l as [|y l IH]; intros H; [reflexivity|].
  simpl. rewrite (H y) by now left.
  rewrite IH; [reflexivity|]. intros; apply H; now right.
Qed.

Lemma stable_sort_ext (A : Type) (le le' : A -> A -> bool) (l : list A) :
  (forall x y, In x l -> In y l -> le x y = le' x y) ->
  stable_sort le l = stable_sort le' l.
Proof.
  induction l as [|x l IH]; intros H; [reflexivity|].
  simpl. rewrite IH by (intros; apply H; now right).
  apply insert_sorted_ext. intros y Hy. apply H; [now left|right].
  now apply (Permutation_in _ (Permutation_sym (stable_sort_perm _ le' l))).
Qed.

(* ================================================================== *)
(** ** [findClosestDate] on the sorted candidate dates                 *)
(* ================================================================== *)

Lemma sorted_dates_In (A : list string) (x : string) :
  In x (Array_sort_default A) <-> In x A.
Proof.
  unfold Array_sort_default. split; apply Permutation_in.
  - apply Permutation_sym, stable_sort_perm.
  - apply stable_sort_perm.
Qed.

Lemma sorted_dates_sorted (A : list string) :
  StronglySorted (fun a b => String.leb a b = true) (Array_sort_default A).
Proof.
  apply stable_sort_sorted.
  - apply string_leb_false.
  - apply string_leb_trans.
Qed.

(** The last element of a sorted array is its greatest. *)
Lemma sorted_last_greatest (l : list string) :
  StronglySorted (fun a b => String.leb a b = true) l ->
  l <> [] ->
  In (nth (List.length l - 1) l EmptyString) l
  /\ forall x, In x l ->
       String.leb x (nth (List.length l - 1) l EmptyString) = true.
Proof.
  induction 1 as [|y l Hl IH Hy]; intros Hne; [congruence|].
  destruct l as [|z l].
  - simpl. split; [now left|]. intros x [<-|[]]. apply string_leb_refl.
  - destruct IH as [Hin Hmax]; [discriminate|].
    replace (List.length (y :: z :: l) - 1) with (S (List.length (z :: l) - 1))
      by (simpl; lia).
    cbn [nth]. split; [now right|].
    intros x [<-|Hx]; [|now apply Hmax].
    rewrite Forall_forall in Hy. now apply Hy.
Qed.

Lemma sorted_head_least (l : list string) :
  StronglySorted (fun a b => String.leb a b = true) l ->
  l <> [] ->
  In (nth 0 l EmptyString) l
  /\ forall x, In x l -> String.leb (nth 0 l EmptyString) x = true.
Proof.
  intros Hl Hne. destruct l as [|y l]; [congruence|].
  simpl. split; [now left|].
  intros x [<-|Hx]; [apply string_leb_refl|].
  inversion Hl as [|? ? _ Hy]; subst.
  rewrite Forall_forall in Hy. now apply Hy.
Qed.

Lemma filter_sorted (f : string -> bool) (l : list string) :
  StronglySorted (fun a b => String.leb a b = true) l ->
  StronglySorted (fun a b => String.leb a b = true) (filter f l).
Proof.
  induction 1 as [|y l Hl IH Hy]; simpl; [constructor|].
  destruct (f y); [|assumption].
  constructor; [assumption|].
  rewrite Forall_forall in Hy |- *.
  intros x Hx. apply filter_In in Hx. now apply Hy.
Qed.

Lemma length_zero_nil (B : Type) (l : list B) :
  (List.length l =? 0)%nat = true <-> l = [].
Proof.
  destruct l; simpl; split; intros H; try reflexivity; discriminate H.
Qed.

Lemma length_pos_cons (B : Type) (l : list B) :
  (0 <? List.length l)%nat = true <-> l <> [].
Proof.
  destruct l; simpl; split; intros H; try reflexivity; try discriminate.
  now contradiction H.
Qed.

(** [findClosestDate] on a non-empty candidate set, sorted as
    [renderSchedules] sorts it. *)
Lemma findClosestDate_sorted (t : string) (A : list string) :
  A <> [] ->
  let r := findClosestDate t (Array_sort_default A) in
  ((exists x, In x A /\ String.leb x t = true) -> latestNotAfter A t r)
  /\ ((forall x, In x A -> String.leb x t = false) -> earliest A r).
Proof.
  intros Hne r. subst r. unfold findClosestDate.
  pose proof (sorted_dates_sorted A) as Hs.
  assert (Hne' : Array_sort_default A <> []).
  { destruct A as [|a A]; [congruence|]. intros E.
    assert (Ha : In a (Array_sort_default (a :: A)))
      by (apply sorted_dates_In; now left).
    rewrite E in Ha. destruct Ha. }
  destruct (List.length (Array_sort_default A) =? 0)%nat eqn:E0.
  { apply length_zero_nil in E0. congruence. }
  set (P := filter (fun d => String.leb d t) (Array_sort_default A)).
  assert (HP : forall x, In x P <-> In x A /\ String.leb x t = true).
  { intros x. unfold P. rewrite filter_In, sorted_dates_In. tauto. }
  destruct (0 <? List.length P)%nat eqn:EP.
  - apply length_pos_cons in EP.
    destruct (sorted_last_greatest _ (filter_sorted _ _ Hs) EP) as [Hin Hmax].
    fold P in Hin, Hmax. split.
    + intros _. apply HP in Hin. destruct Hin as [HinA Hle].
      repeat split; try assumption.
      intros x HxA Hxt. apply Hmax. apply HP. now split.
    + intros Hnone. apply HP in Hin. destruct Hin as [HinA Hle].
      rewrite (Hnone _ HinA) in Hle. discriminate.
  - assert (EP' : P = []).
    { destruct P; [reflexivity|discriminate]. }
    destruct (sorted_head_least _ Hs Hne') as [Hin Hmin]. split.
    + intros (x & HxA & Hxt).
      assert (Hx : In x P) by (apply HP; now split).
      rewrite EP' in Hx. destruct Hx.
    + intros _. split.
      * now apply sorted_dates_In.
      * intros x Hx. apply Hmin. now apply sorted_dates_In.
Qed.

(** A requested date that is itself a candidate is its own closest date. *)
Lemma findClosestDate_member (t : string) (A : list string) :
  In t A -> findClosestDate t (Array_sort_default A) = t.
Proof.
  intros Ht.
  assert (Hne : A <> []) by (intros ->; destruct Ht).
  destruct (findClosestDate_sorted t A Hne) as [Hlatest _].
  destruct Hlatest as (_ & Hle & Hmax).
  - exists t. split; [assumption|apply string_leb_refl].
  - apply String.leb_antisym; [assumption|].
    apply Hmax; [assumption|apply string_leb_refl].
Qed.

(* ================================================================== *)
(** ** [getTripsForDate] and the resolution of [renderSchedules]       *)
(* ================================================================== *)

Lemma Set_add_In (s : list string) (x y : string) :
  In y (Set_add s x) <-> In y s \/ y = x.
Proof.
  unfold Set_add. destruct (includes s x) eqn:E.
  - apply includes_In in E. split; [tauto|]. intros [H| ->]; assumption.
  - rewrite in_app_iff. simpl. intuition congruence.
Qed.

Lemma fold_Set_add_In (l s : list string) (y : string) :
  In y (fold_left Set_add l s) <-> In y s \/ In y l.
Proof.
  revert s. induction l as [|x l IH]; intros s; simpl; [tauto|].
  rewrite IH, Set_add_In. intuition congruence.
Qed.

Lemma fold_Set_add_app (l l' s : list string) :
  fold_left Set_add (l ++ l') s = fold_left Set_add l' (fold_left Set_add l s).
Proof. apply fold_left_app. Qed.

(** One trip: lines 380-395. *)
Lemma visitTrip_eq (d : Z) (date : string) (p : Pattern)
  (ts : list TripData) (av : list string) (t : Trip) :
  visitTrip d date p (ts, av) t
  = Ok (ts ++ (if includes (dates t) date then withStartTime (t, p) else []),
        if Z.eqb (direction p) d then fold_left Set_add (dates t) av else av).
Proof.
  unfold visitTrip, withStartTime. simpl fst. simpl snd.
  destruct (includes (dates t) date).
  - destruct (schedule t) as [|e sch]; simpl.
    + now rewrite app_nil_r.
    + reflexivity.
  - simpl. now rewrite app_nil_r.
Qed.

Lemma forEach_visitTrip (d : Z) (date : string) (p : Pattern) (l : list Trip) :
  forall (ts : list TripData) (av : list string),
  forEach (visitTrip d date p) l (ts, av)
  = Ok (ts ++ flat_map withStartTime
                 (map (fun t => (t, p))
                      (filter (fun t => includes (dates t) date) l)),
        if Z.eqb (direction p) d
        then fold_left Set_add (flat_map dates l) av else av).
Proof.
  induction l as [|t l IH]; intros ts av.
  - simpl. rewrite app_nil_r. now destruct (Z.eqb (direction p) d).
  - cbn [forEach]. rewrite visitTrip_eq. cbn [bind]. rewrite IH.
    f_equal. f_equal.
    + rewrite <- app_assoc. f_equal. cbn [filter].
      destruct (includes (dates t) date); reflexivity.
    + destruct (Z.eqb (direction p) d); [|reflexivity].
      cbn [flat_map]. now rewrite fold_Set_add_app.
Qed.

Lemma forEach_visitPattern (d : Z) (date : string) (ps : list Pattern) :
  forall (ts : list TripData) (av : list string),
  forEach (visitPattern d date) ps (ts, av)
  = Ok (ts ++ scheduledTrips ps d date,
        fold_left Set_add (candidateDates ps d) av).
Proof.
  unfold scheduledTrips, runningTrips, candidateDates, ofDirection.
  induction ps as [|p ps IH]; intros ts av.
  - simpl. now rewrite app_nil_r.
  - cbn [forEach]. unfold visitPattern at 1. cbn [filter].
    destruct (Z.eqb (direction p) d) eqn:Ed; cbn [negb bind].
    + rewrite forEach_visitTrip, Ed. cbn [bind]. rewrite IH.
      cbn [flat_map]. rewrite flat_map_app, fold_Set_add_app, app_assoc.
      reflexivity.
    + apply IH.
Qed.

(** [getTripsForDate] returns the scheduled trips of the date and collects
    the candidate dates; it never throws. *)
Lemma getTripsForDate_eq (ps : list Pattern) (d : Z) (date : string)
  (av : list string) :
  getTripsForDate ps d date av
  = Ok (scheduledTrips ps d date,
        fold_left Set_add (candidateDates ps d) av).
Proof.
  unfold getTripsForDate. now rewrite forEach_visitPattern.
Qed.

Lemma collected_dates_In (ps : list Pattern) (d : Z) (x : string) :
  In x (fold_left Set_add (candidateDates ps d) []) <->
  In x (candidateDates ps d).
Proof. rewrite fold_Set_add_In. simpl. tauto. Qed.

Lemma collected_dates_nil (ps : list Pattern) (d : Z) :
  fold_left Set_add (candidateDates ps d) [] = [] <->
  candidateDates ps d = [].
Proof.
  split; intros H.
  - destruct (candidateDates ps d) as [|x l] eqn:E; [reflexivity|].
    assert (Hx : In x (fold_left Set_add (x :: l) []))
      by (apply fold_Set_add_In; right; now left).
    rewrite H in Hx. destruct Hx.
  - now rewrite H.
Qed.

(** Lines 400-412 in terms of the specification's vocabulary. *)
Lemma resolveTrips_eq (ps : list Pattern) (d : Z) (date : string) :
  resolveTrips ps d date
  = Ok (let A := fold_left Set_add (candidateDates ps d) [] in
        let r := findClosestDate date (Array_sort_default A) in
        if (List.length (scheduledTrips ps d date) =? 0)%nat
           && (0 <? List.length A)%nat
           && negb (String.eqb r date)
        then {| allTrips := scheduledTrips ps d r;
                isFallback := true;
                fallbackDateDisplay := displayDate r |}
        else {| allTrips := scheduledTrips ps d date;
                isFallback := false;
                fallbackDateDisplay := EmptyString |}).
Proof.
  unfold resolveTrips. rewrite getTripsForDate_eq. cbn [bind].
  cbv zeta.
  destruct ((List.length (scheduledTrips ps d date) =? 0)%nat
            && (0 <? List.length (fold_left Set_add (candidateDates ps d) []))%nat);
    [|reflexivity].
  cbn [andb].
  destruct (negb (String.eqb _ date)); [|reflexivity].
  rewrite getTripsForDate_eq. reflexivity.
Qed.

(** A date is a candidate exactly when some trip of the direction runs on it. *)
Lemma candidateDates_In (ps : list Pattern) (d : Z) (x : string) :
  In x (candidateDates ps d) <->
  exists p t, In p ps /\ direction p = d /\ In t (trips p) /\ In x (dates t).
Proof.
  unfold candidateDates, ofDirection. rewrite in_flat_map. split.
  - intros (p & Hp & Hx). apply filter_In in Hp. destruct Hp as [Hp Hd].
    apply Z.eqb_eq in Hd. apply in_flat_map in Hx.
    destruct Hx as (t & Ht & Hx). now exists p, t.
  - intros (p & t & Hp & Hd & Ht & Hx). exists p. split.
    + apply filter_In. split; [assumption|]. now apply Z.eqb_eq.
    + apply in_flat_map. now exists t.
Qed.

Lemma runningTrips_In (ps : list Pattern) (d : Z) (date : string)
  (t : Trip) (p : Pattern) :
  In (t, p) (runningTrips ps d date) <->
  In p ps /\ direction p = d /\ In t (trips p) /\ In date (dates t).
Proof.
  unfold runningTrips, ofDirection. rewrite in_flat_map. split.
  - intros (q & Hq & Hx). apply filter_In in Hq. destruct Hq as [Hq Hd].
    apply Z.eqb_eq in Hd. apply in_map_iff in Hx.
    destruct Hx as (t' & E & Ht). inversion E; subst t' q.
    apply filter_In in Ht. destruct Ht as [Ht Hi].
    apply includes_In in Hi. tauto.
  - intros (Hp & Hd & Ht & Hx). exists p. split.
    + apply filter_In. split; [assumption|]. now apply Z.eqb_eq.
    + apply in_map_iff. exists t. split; [reflexivity|].
      apply filter_In. split; [assumption|]. now apply includes_In.
Qed.

(* ================================================================== *)
(** ** The service calendar resolver                                   *)
(* ================================================================== *)

Lemma candidates_split (A : list string) (t : string) :
  (exists x, In x A /\ String.leb x t = true)
  \/ (forall x, In x A -> String.leb x t = false).
Proof.
  induction A as [|a A [(x & Hx & Hle)|IH]].
  - right. intros x [].
  - left. exists x. split; [now right|assumption].
  - destruct (String.leb a t) eqn:E.
    + left. exists a. split; [now left|assumption].
    + right. intros x [<-|Hx]; auto.
Qed.

Lemma latestNotAfter_ext (A B : list string) (t r : string) :
  (forall x, In x A <-> In x B) ->
  latestNotAfter A t r -> latestNotAfter B t r.
Proof.
  intros E (Hin & Hle & Hmax). repeat split.
  - now apply E.
  - assumption.
  - intros x Hx. apply Hmax. now apply E.
Qed.

Lemma earliest_ext (A B : list string) (r : string) :
  (forall x, In x A <-> In x B) -> earliest A r -> earliest B r.
Proof.
  intros E (Hin & Hmin). split.
  - now apply E.
  - intros x Hx. apply Hmin. now apply E.
Qed.

(** Without a running trip the first pass collects no trip. *)
Lemma scheduledTrips_none (ps : list Pattern) (d : Z) (date : string) :
  ~ In date (candidateDates ps d) -> scheduledTrips ps d date = [].
Proof.
  intros Hno. unfold scheduledTrips.
  destruct (runningTrips ps d date) as [|[t p] l] eqn:E; [reflexivity|].
  exfalso. apply Hno.
  assert (H : In (t, p) (runningTrips ps d date)) by (rewrite E; now left).
  apply runningTrips_In in H. apply candidateDates_In. now exists p, t.
Qed.

(** The closest date of a non-empty candidate set is one of its dates. *)
Lemma findClosestDate_In (t : string) (A : list string) :
  A <> [] -> In (findClosestDate t (Array_sort_default A)) A.
Proof.
  intros Hne. destruct (findClosestDate_sorted t A Hne) as [H1 H2].
  destruct (candidates_split A t) as [H|H].
  - now destruct (H1 H).
  - now destruct (H2 H).
Qed.

(** A requested date with service is resolved by the first pass alone. *)
Lemma resolveTrips_candidate (ps : list Pattern) (d : Z) (date : string) :
  In date (candidateDates ps d) ->
  resolveTrips ps d date
  = Ok {| allTrips := scheduledTrips ps d date; isFallback := false;
          fallbackDateDisplay := EmptyString |}.
Proof.
  intros Hin. rewrite resolveTrips_eq. cbv zeta.
  rewrite findClosestDate_member by now apply collected_dates_In.
  rewrite String.eqb_refl. cbn [negb]. now rewrite andb_false_r.
Qed.

(** Membership in the list of scheduled trips. *)
Lemma scheduledTrips_In (ps : list Pattern) (d : Z) (date : string)
  (x : TripData) :
  In x (scheduledTrips ps d date) <->
  In (trip x, pattern x) (runningTrips ps d date)
  /\ exists first rest,
       schedule (trip x) = first :: rest /\ startTime x = arrival_time first.
Proof.
  unfold scheduledTrips. rewrite in_flat_map. split.
  - intros ([t p] & Hrun & Hx). unfold withStartTime in Hx. simpl in Hx.
    destruct (schedule t) as [|first rest] eqn:E; [destruct Hx|].
    destruct Hx as [<-|[]]. simpl. split; [assumption|].
    exists first, rest. now split.
  - intros (Hrun & first & rest & E & Hs). exists (trip x, pattern x).
    split; [assumption|]. unfold withStartTime. simpl. rewrite E.
    left. destruct x as [t p s]. simpl in *. now subst.
Qed.

(** C2.  When no trip of the selected direction runs on the requested date
    and the candidate set A of that direction is not empty, the resolver
    falls back to the date r that [findClosestDate] picks in the sorted
    candidates: the greatest date of A not after the request if there is one,
    the least date of A otherwise.  With A = 20240101, 20240105, 20240110 the
    requests 20240103 and 20231225 both fall back to 20240101. *)
Theorem findClosestDate_fallback_date :
  (forall (ps : list Pattern) (d : Z) (date : string),
     (forall p t, In p ps -> direction p = d -> In t (trips p) ->
                  includes (dates t) date = false) ->
     candidateDates ps d <> [] ->
     exists r,
       r = findClosestDate date
             (Array_sort_default (fold_left Set_add (candidateDates ps d) []))
       /\ resolveTrips ps d date
          = Ok {| allTrips := scheduledTrips ps d r; isFallback := true;
                  fallbackDateDisplay := displayDate r |}
       /\ ((exists x, In x (candidateDates ps d) /\ String.leb x date = true)
           -> latestNotAfter (candidateDates ps d) date r)
       /\ ((forall x, In x (candidateDates ps d) -> String.leb x date = false)
           -> earliest (candidateDates ps d) r))
  /\ findClosestDate "20240103"
       (Array_sort_default ["20240110"; "20240101"; "20240105"]) = "20240101"
  /\ findClosestDate "20231225"
       (Array_sort_default ["20240110"; "20240101"; "20240105"]) = "20240101"
  /\ resolveTrips Samples.january 0 "20240103"
     = Ok {| allTrips := scheduledTrips Samples.january 0 "20240101";
             isFallback := true; fallbackDateDisplay := "2024-01-01" |}
  /\ resolveTrips Samples.january 0 "20231225"
     = Ok {| allTrips := scheduledTrips Samples.january 0 "20240101";
             isFallback := true; fallbackDateDisplay := "2024-01-01" |}.
Proof.
  split; [|repeat split; vm_compute; reflexivity].
  intros ps d date Hnone Hne.
  set (A := fold_left Set_add (candidateDates ps d) []).
  assert (HA : forall x, In x A <-> In x (candidateDates ps d))
    by (intros x; apply collected_dates_In).
  assert (HneA : A <> []).
  { intros E. apply Hne. now apply collected_dates_nil. }
  assert (Hout : ~ In date (candidateDates ps d)).
  { intros H. apply candidateDates_In in H.
    destruct H as (p & t & Hp & Hd & Ht & Hx).
    apply includes_In in Hx. rewrite (Hnone p t Hp Hd Ht) in Hx.
    discriminate. }
  exists (findClosestDate date (Array_sort_default A)).
  split; [reflexivity|].
  pose proof (findClosestDate_In date A HneA) as Hr.
  destruct (findClosestDate_sorted date A HneA) as [H1 H2].
  split; [|split].
  - rewrite resolveTrips_eq. cbv zeta. fold A.
    rewrite (scheduledTrips_none _ _ _ Hout). cbn [List.length Nat.eqb andb].
    apply length_pos_cons in HneA. rewrite HneA. cbn [andb].
    assert (E : String.eqb (findClosestDate date (Array_sort_default A)) date
                = false).
    { apply String.eqb_neq. intros E. rewrite E in Hr. apply Hout.
      now apply HA. }
    now rewrite E.
  - intros (x & Hx & Hle). apply latestNotAfter_ext with (A := A); [exact HA|].
    apply H1. exists x. split; [now apply HA|assumption].
  - intros H. apply earliest_ext with (A := A); [exact HA|].
    apply H2. intros x Hx. apply H. now apply HA.
Qed.

Lemma findClosestDate_fallback_date_witness :
  exists r,
    r = findClosestDate "20240103"
          (Array_sort_default
             (fold_left Set_add (candidateDates Samples.january 0) []))
    /\ resolveTrips Samples.january 0 "20240103"
       = Ok {| allTrips := scheduledTrips Samples.january 0 r;
               isFallback := true; fallbackDateDisplay := displayDate r |}
    /\ ((exists x, In x (candidateDates Samples.january 0)
                   /\ String.leb x "20240103" = true)
        -> latestNotAfter (candidateDates Samples.january 0) "20240103" r)
    /\ ((forall x, In x (candidateDates Samples.january 0)
                   -> String.leb x "20240103" = false)
        -> earliest (candidateDates Samples.january 0) r).
Proof.
  apply (proj1 findClosestDate_fallback_date Samples.january 0%Z "20240103").
  - intros p t [<-|[<-|[]]] Hd; simpl in Hd; [|discriminate Hd].
    intros [<-|[<-|[]]]; reflexivity.
  - vm_compute. discriminate.
Defined.

(** C3, as amended.  For a requested date that belongs to the service dates
    of some trip of the selected direction, the resolver returns, in
    catalogue order, the trips of that direction whose service dates contain
    the date and whose schedule is not empty, each with its pattern and its
    schedule's first arrival time, and the fallback flag is not set.  Trips
    with an empty schedule are left out. *)
Theorem resolveTrips_on_service_date
  (ps : list Pattern) (d : Z) (date : string) :
  In date (candidateDates ps d) ->
  resolveTrips ps d date
  = Ok {| allTrips := scheduledTrips ps d date; isFallback := false;
          fallbackDateDisplay := EmptyString |}
  /\ forall x,
       In x (scheduledTrips ps d date) <->
       (In (trip x, pattern x) (runningTrips ps d date)
        /\ exists first rest,
             schedule (trip x) = first :: rest
             /\ startTime x = arrival_time first).
Proof.
  intros Hin. split.
  - now apply resolveTrips_candidate.
  - intros x. apply scheduledTrips_In.
Qed.

Lemma resolveTrips_on_service_date_witness :
  resolveTrips Samples.january 0 "20240105"
  = Ok {| allTrips := scheduledTrips Samples.january 0 "20240105";
          isFallback := false; fallbackDateDisplay := EmptyString |}
  /\ forall x,
       In x (scheduledTrips Samples.january 0 "20240105") <->
       (In (trip x, pattern x) (runningTrips Samples.january 0 "20240105")
        /\ exists first rest,
             schedule (trip x) = first :: rest
             /\ startTime x = arrival_time first).
Proof.
  apply (resolveTrips_on_service_date Samples.january 0%Z "20240105").
  vm_compute. tauto.
Defined.

(** C3 as stated fails: on 5 January the only running trip of the pattern
    has an empty schedule, and the resolver returns no trip at all. *)
Lemma resolveTrips_drops_unscheduled_trip :
  In "20240105" (candidateDates [Samples.withUnscheduled] 0)
  /\ runningTrips [Samples.withUnscheduled] 0 "20240105"
     = [ (Samples.unscheduled, Samples.withUnscheduled) ]
  /\ resolveTrips [Samples.withUnscheduled] 0 "20240105" = Ok noItinerary.
Proof.
  repeat split; vm_compute; tauto.
Qed.

(** C7.  The resolver never throws: for every catalogue, direction and
    requested date both passes of [getTripsForDate] and the resolution end
    with a result, whatever paths or schedules are empty.  When the candidate
    set A of the direction is empty the result is the empty itinerary
    without fallback. *)
Theorem resolveTrips_never_throws
  (ps : list Pattern) (d : Z) (date : string) :
  (forall av, exists r, getTripsForDate ps d date av = Ok r)
  /\ (exists it, resolveTrips ps d date = Ok it)
  /\ (candidateDates ps d = [] -> resolveTrips ps d date = Ok noItinerary).
Proof.
  split; [|split].
  - intros av. rewrite getTripsForDate_eq. eauto.
  - rewrite resolveTrips_eq. eauto.
  - intros HA. rewrite resolveTrips_eq. cbv zeta.
    rewrite scheduledTrips_none by (rewrite HA; intros []).
    rewrite HA. reflexivity.
Qed.

Lemma resolveTrips_never_throws_witness :
  resolveTrips Samples.january 2 "20240105" = Ok noItinerary.
Proof.
  apply (resolveTrips_never_throws Samples.january 2%Z "20240105").
  reflexivity.
Defined.

(** C8.  When the requested date is a service date of the direction and
    every trip running on it has an empty schedule, the first pass collects
    no trip, the requested date is among the collected dates,
    [findClosestDate] returns it unchanged, and the resolver answers with the
    empty itinerary, fallback flag unset, whatever the other dates offer. *)
Theorem resolveTrips_unscheduled_date
  (ps : list Pattern) (d : Z) (date : string) :
  In date (candidateDates ps d) ->
  (forall t p, In (t, p) (runningTrips ps d date) -> schedule t = []) ->
  let A := fold_left Set_add (candidateDates ps d) [] in
  getTripsForDate ps d date [] = Ok ([], A)
  /\ In date A
  /\ findClosestDate date (Array_sort_default A) = date
  /\ resolveTrips ps d date = Ok noItinerary.
Proof.
  intros Hin Hempty A.
  assert (HA : In date A) by now apply collected_dates_In.
  assert (Hnone : scheduledTrips ps d date = []).
  { destruct (scheduledTrips ps d date) as [|x l] eqn:E; [reflexivity|].
    assert (Hx : In x (scheduledTrips ps d date)) by (rewrite E; now left).
    apply scheduledTrips_In in Hx.
    destruct Hx as (Hrun & first & rest & Hs & _).
    rewrite (Hempty _ _ Hrun) in Hs. discriminate. }
  repeat split.
  - rewrite getTripsForDate_eq. now rewrite Hnone.
  - assumption.
  - now apply findClosestDate_member.
  - rewrite resolveTrips_candidate by assumption. now rewrite Hnone.
Qed.

Lemma resolveTrips_unscheduled_date_witness :
  resolveTrips [Samples.withUnscheduled] 0 "20240105" = Ok noItinerary
  /\ scheduledTrips [Samples.withUnscheduled] 0 "20240101" <> [].
Proof.
  split.
  - apply (resolveTrips_unscheduled_date [Samples.withUnscheduled] 0%Z
             "20240105").
    + vm_compute. tauto.
    + intros t p [E|[]]. now inversion E.
  - discriminate.
Defined.

(* ================================================================== *)
(** ** The track serializer                                            *)
(* ================================================================== *)

Import Gpx GpxSpec.

Lemma append_assoc (a b c : string) :
  ((a ++ b) ++ c = a ++ (b ++ c))%string.
Proof. induction a as [|x a IH]; simpl; [reflexivity|now rewrite IH]. Qed.

Lemma append_nil_r (a : string) : (a ++ EmptyString)%string = a.
Proof. induction a as [|x a IH]; simpl; [reflexivity|now rewrite IH]. Qed.

Section SerializerFacts.

Variable number : Type.
Variable Number_toString : number -> string.

Lemma appendTrackPoint_eq (gpx : string) (c : number * number) :
  appendTrackPoint Number_toString gpx c
  = (gpx ++ trackPoint (Number_toString (snd c)) (Number_toString (fst c)))%string.
Proof. destruct c as [lon lat]. reflexivity. Qed.

(** The loop over the coordinates appends one element per coordinate. *)
Lemma fold_appendTrackPoint (coords : list (number * number)) :
  forall gpx,
    fold_left (appendTrackPoint Number_toString) coords gpx
    = (gpx ++ joinAll (trackPoints Number_toString coords))%string.
Proof.
  induction coords as [|c coords IH]; intros gpx; simpl.
  - now rewrite append_nil_r.
  - rewrite IH, appendTrackPoint_eq. apply append_assoc.
Qed.

Lemma appendWaypoint_eq (gpx : string) (p : PathEntry) :
  appendWaypoint gpx p
  = if hasCoordinates p then (gpx ++ waypointElement p)%string else gpx.
Proof.
  unfold appendWaypoint, hasCoordinates, waypointElement.
  unfold truthy, Truthy_Stop, Truthy_string. cbn [andb].
  destruct (negb (String.eqb (lat (stop p)) EmptyString)
            && negb (String.eqb (lon (stop p)) EmptyString));
    [|reflexivity].
  repeat rewrite append_assoc. reflexivity.
Qed.

Lemma fold_appendWaypoint (stops : list PathEntry) :
  forall gpx,
    fold_left appendWaypoint stops gpx
    = (gpx ++ joinAll (map waypointElement (filter hasCoordinates stops)))%string.
Proof.
  induction stops as [|p stops IH]; intros gpx; simpl.
  - now rewrite append_nil_r.
  - rewrite IH, appendWaypoint_eq.
    destruct (hasCoordinates p); [|reflexivity].
    simpl. apply append_assoc.
Qed.

(** The document, part by part. *)
Lemma createGPX_structure (pattern : Pattern) (shape : Shape number)
  (includeStops : bool) :
  createGPX Number_toString pattern shape includeStops
  = (xmlHeader
     ++ metadataElement (or_else (short_name pattern) (id pattern))
     ++ waypoints pattern includeStops
     ++ trackOpening (template (short_name pattern) ++ " ("
                      ++ directionName pattern ++ ")")
     ++ joinAll (trackPoints Number_toString (coordinates shape))
     ++ trackClosing)%string.
Proof.
  unfold createGPX. cbv zeta. rewrite fold_appendTrackPoint.
  unfold waypoints, xmlHeader, metadataElement, trackOpening, trackClosing,
    directionName.
  unfold truthy at 1, Truthy_array. rewrite andb_true_r.
  destruct includeStops.
  - rewrite fold_appendWaypoint. repeat rewrite append_assoc. reflexivity.
  - repeat rewrite append_assoc. reflexivity.
Qed.

End SerializerFacts.

(** *** Counting occurrences across a concatenation *)

Lemma startsWith_append (needle lit x : string) :
  startsWith needle lit = true ->
  startsWith needle (lit ++ x) = true.
Proof.
  revert lit. induction needle as [|a needle IH]; intros lit; [reflexivity|].
  destruct lit as [|b lit]; simpl; [discriminate|].
  destruct (Ascii.eqb a b); simpl; [apply IH|discriminate].
Qed.

Lemma startsWith_append_false (needle lit x : string) :
  startsWith needle lit = false -> startsWith lit needle = false ->
  startsWith needle (lit ++ x) = false.
Proof.
  revert lit. induction needle as [|a needle IH]; intros lit; [discriminate|].
  destruct lit as [|b lit]; simpl; [discriminate|].
  rewrite (Ascii.eqb_sym b a).
  destruct (Ascii.eqb a b); simpl; [apply IH|reflexivity].
Qed.

Lemma occurrences_literal (needle lit x : string) :
  selfContained needle lit = true ->
  occurrences needle (lit ++ x)
  = occurrences needle lit + occurrences needle x.
Proof.
  induction lit as [|c lit IH]; intros H; [reflexivity|].
  cbn [selfContained] in H. apply andb_true_iff in H. destruct H as [H1 H2].
  change ((String c lit ++ x)%string) with (String c (lit ++ x)%string).
  cbn [occurrences]. rewrite (IH H2), Nat.add_assoc. f_equal.
  change (String c (lit ++ x)%string) with ((String c lit ++ x)%string).
  destruct (startsWith needle (String c lit)) eqn:E.
  - now rewrite startsWith_append.
  - simpl in H1. apply negb_true_iff in H1.
    now rewrite startsWith_append_false.
Qed.

Lemma occurrences_markupFree (needle s x : string) :
  markupFree s = true ->
  occurrences (String "<" needle) (s ++ x)
  = occurrences (String "<" needle) x.
Proof.
  induction s as [|c s IH]; intros H; [reflexivity|].
  cbn [markupFree] in H. apply andb_true_iff in H. destruct H as [H1 H2].
  change ((String c s ++ x)%string) with (String c (s ++ x)%string).
  cbn [occurrences startsWith]. rewrite (IH H2).
  apply negb_true_iff in H1. rewrite (Ascii.eqb_sym "<"%char c), H1.
  reflexivity.
Qed.

Lemma startsWith_before (w s rest : string) :
  clearOf w rest = true ->
  startsWith w (s ++ rest) = startsWith w s.
Proof.
  intros H. revert s. induction w as [|a w IH]; intros s; [reflexivity|].
  destruct s as [|b s].
  - destruct rest as [|c rest]; [reflexivity|].
    cbn [clearOf absent] in H. apply andb_true_iff in H.
    destruct H as [H _]. apply negb_true_iff in H.
    cbn [String.append startsWith]. now rewrite H.
  - change ((String b s ++ rest)%string) with (String b (s ++ rest)%string).
    cbn [startsWith]. rewrite IH; [reflexivity|].
    destruct rest as [|c rest]; [reflexivity|].
    cbn [clearOf absent] in H |- *. apply andb_true_iff in H. tauto.
Qed.

(** A text followed by one that cannot complete a needle begun in it. *)
Lemma occurrences_before (x : ascii) (w s rest : string) :
  clearOf w rest = true ->
  occurrences (String x w) (s ++ rest)
  = occurrences (String x w) s + occurrences (String x w) rest.
Proof.
  intros H. induction s as [|b s IH]; [reflexivity|].
  change ((String b s ++ rest)%string) with (String b (s ++ rest)%string).
  cbn [occurrences startsWith]. rewrite IH, (startsWith_before _ _ _ H).
  apply Nat.add_assoc.
Qed.

Section SerializerClaims.

Variable number : Type.
Variable Number_toString : number -> string.

(** Without waypoints the document is fixed text around the two names. *)
Lemma createGPX_without_stops (pattern : Pattern) (shape : Shape number) :
  createGPX Number_toString pattern shape false
  = (beforeMetadataName
     ++ or_else (short_name pattern) (id pattern)
     ++ betweenNames
     ++ template (short_name pattern)
     ++ afterTrackName (directionName pattern)
          (joinAll (trackPoints Number_toString (coordinates shape))))%string.
Proof.
  rewrite createGPX_structure.
  unfold waypoints, beforeMetadataName, betweenNames, afterTrackName,
    metadataElement, trackOpening.
  repeat rewrite append_assoc.
  change (EmptyString ++ ?x)%string with x. reflexivity.
Qed.

(** Occurrences in a document without waypoints: those of the fixed text
    and those inside the two names, which are copied as they are. *)
Lemma occurrences_without_stops (x : ascii) (w n1 n2 tail : string) :
  selfContained (String x w) beforeMetadataName = true ->
  selfContained (String x w) betweenNames = true ->
  absent "<"%char w = true ->
  clearOf w tail = true ->
  occurrences (String x w)
    (beforeMetadataName ++ n1 ++ betweenNames ++ n2 ++ tail)
  = occurrences (String x w) beforeMetadataName
    + (occurrences (String x w) n1
       + (occurrences (String x w) betweenNames
          + (occurrences (String x w) n2 + occurrences (String x w) tail))).
Proof.
  intros H1 H2 Hw Htail.
  assert (Hb : clearOf w (betweenNames ++ n2 ++ tail)%string = true)
    by exact Hw.
  rewrite (occurrences_literal _ _ _ H1), (occurrences_before _ _ _ _ Hb).
  rewrite (occurrences_literal _ _ _ H2), (occurrences_before _ _ _ _ Htail).
  reflexivity.
Qed.

End SerializerClaims.

(** C4.  For every pattern and shape the document consists of the header,
    the metadata, the waypoints, the opening of the one track, one track
    point element per shape coordinate in shape order, and the closing text;
    the i-th element gives the latitude of the i-th coordinate before its
    longitude, and there is no waypoint when stops are not requested.  For a
    shape of the two coordinates rendered as -9.1, 38.7 and -9.2, 38.8 the
    track points are lat 38.7 lon -9.1 followed by lat 38.8 lon -9.2.  The
    names of the pattern are copied into the document as they are, so the
    text of the document without stops has two trkpt elements besides those
    written in the two names, and no wpt element besides those written in
    the two names: exactly two and zero when the names contain neither. *)
Theorem createGPX_track_points
  (number : Type) (Number_toString : number -> string)
  (pattern : Pattern) (shape : Shape number) (includeStops : bool) :
  createGPX Number_toString pattern shape includeStops
  = (xmlHeader
     ++ metadataElement (or_else (short_name pattern) (id pattern))
     ++ waypoints pattern includeStops
     ++ trackOpening (template (short_name pattern) ++ " ("
                      ++ directionName pattern ++ ")")
     ++ joinAll (trackPoints Number_toString (coordinates shape))
     ++ trackClosing)%string
  /\ List.length (trackPoints Number_toString (coordinates shape))
     = List.length (coordinates shape)
  /\ (forall i lon lat,
        nth_error (coordinates shape) i = Some (lon, lat) ->
        nth_error (trackPoints Number_toString (coordinates shape)) i
        = Some (trackPoint (Number_toString lat) (Number_toString lon)))
  /\ waypoints pattern false = EmptyString
  /\ (forall lon1 lat1 lon2 lat2,
        coordinates shape = [ (lon1, lat1); (lon2, lat2) ] ->
        Number_toString lon1 = "-9.1" -> Number_toString lat1 = "38.7" ->
        Number_toString lon2 = "-9.2" -> Number_toString lat2 = "38.8" ->
        createGPX Number_toString pattern shape false
        = (xmlHeader
           ++ metadataElement (or_else (short_name pattern) (id pattern))
           ++ trackOpening (template (short_name pattern) ++ " ("
                            ++ directionName pattern ++ ")")
           ++ trackPoint "38.7" "-9.1"
           ++ trackPoint "38.8" "-9.2"
           ++ trackClosing)%string
        /\ occurrences "<trkpt"
             (createGPX Number_toString pattern shape false)
           = 2 + occurrences "<trkpt"
                   (or_else (short_name pattern) (id pattern))
             + occurrences "<trkpt" (template (short_name pattern))
        /\ occurrences "<wpt"
             (createGPX Number_toString pattern shape false)
           = occurrences "<wpt" (or_else (short_name pattern) (id pattern))
             + occurrences "<wpt" (template (short_name pattern))).
Proof.
  split; [apply createGPX_structure|].
  split; [apply length_map|].
  split.
  { intros i lon lat H. unfold trackPoints.
    rewrite nth_error_map, H. reflexivity. }
  split; [reflexivity|].
  intros lon1 lat1 lon2 lat2 Hc H1 H2 H3 H4. split.
  - rewrite createGPX_structure, Hc. unfold waypoints, trackPoints.
    cbn [map joinAll fold_right fst snd String.append].
    rewrite H1, H2, H3, H4, append_nil_r. reflexivity.
  - rewrite createGPX_without_stops, Hc.
    unfold trackPoints. cbn [map joinAll fold_right fst snd].
    rewrite H1, H2, H3, H4.
    split; rewrite occurrences_without_stops by reflexivity;
      unfold directionName; destruct (Z.eqb (direction pattern) 0);
      vm_compute (occurrences _ beforeMetadataName);
      vm_compute (occurrences _ betweenNames);
      vm_compute (occurrences _ (afterTrackName _ _)); lia.
Qed.

Lemma createGPX_track_points_witness :
  occurrences "<trkpt"
    (createGPX (fun text : string => text) Samples.patternA
       (twoPoints "-9.1" "38.7" "-9.2" "38.8") false) = 2
  /\ occurrences "<wpt"
       (createGPX (fun text : string => text) Samples.patternA
          (twoPoints "-9.1" "38.7" "-9.2" "38.8") false) = 0.
Proof.
  destruct (createGPX_track_points string (fun text : string => text)
              Samples.patternA (twoPoints "-9.1" "38.7" "-9.2" "38.8") false)
    as (_ & _ & _ & _ & H).
  destruct (H "-9.1" "38.7" "-9.2" "38.8" eq_refl eq_refl eq_refl eq_refl
              eq_refl) as (_ & Htrkpt & Hwpt).
  split; [rewrite Htrkpt|rewrite Hwpt]; reflexivity.
Defined.

(** A pattern whose [short_name] holds the text of a track point and of a
    waypoint: for the shape of two coordinates and without stops, the
    document has four trkpt elements and two wpt elements, the name being
    written in the metadata and in the track. *)
Lemma createGPX_counts_names :
  occurrences "<trkpt"
    (createGPX (fun text : string => text) Samples.markedUp
       (twoPoints "-9.1" "38.7" "-9.2" "38.8") false) = 4
  /\ occurrences "<wpt"
       (createGPX (fun text : string => text) Samples.markedUp
          (twoPoints "-9.1" "38.7" "-9.2" "38.8") false) = 2
  /\ List.length (coordinates (twoPoints "-9.1" "38.7" "-9.2" "38.8")) = 2.
Proof.
  repeat split.
Qed.



(** C10.  The metadata name is the pattern's [short_name] or, failing that,
    its [id]; the track name is the [short_name] as it is.  For a pattern
    without [short_name] the metadata name is therefore the [id], and the
    track name is the text undefined followed by (Ida) or (Volta); a pattern
    with a [short_name] carries it in the track name, and in the metadata
    name unless it is empty. *)
Theorem createGPX_name_fallback
  (number : Type) (Number_toString : number -> string)
  (pattern : Pattern) (shape : Shape number) (includeStops : bool) :
  (short_name pattern = None ->
   createGPX Number_toString pattern shape includeStops
   = (xmlHeader
      ++ metadataElement (id pattern)
      ++ waypoints pattern includeStops
      ++ trackOpening
           (if Z.eqb (direction pattern) 0
            then "undefined (Ida)" else "undefined (Volta)")
      ++ joinAll (trackPoints Number_toString (coordinates shape))
      ++ trackClosing)%string)
  /\ (forall s,
        short_name pattern = Some s ->
        createGPX Number_toString pattern shape includeStops
        = (xmlHeader
           ++ metadataElement
                (if String.eqb s EmptyString then id pattern else s)
           ++ waypoints pattern includeStops
           ++ trackOpening (s ++ " (" ++ directionName pattern ++ ")")
           ++ joinAll (trackPoints Number_toString (coordinates shape))
           ++ trackClosing)%string).
Proof.
  split.
  - intros Hs. rewrite createGPX_structure, Hs. unfold directionName.
    cbn [or_else template].
    destruct (Z.eqb (direction pattern) 0); reflexivity.
  - intros s Hs. rewrite createGPX_structure, Hs.
    cbn [or_else template]. unfold truthy, Truthy_string.
    destruct (String.eqb s EmptyString); reflexivity.
Qed.

Lemma createGPX_name_fallback_witness :
  createGPX (fun text : string => text) (Samples.unnamed 1)
    (twoPoints "-9.1" "38.7" "-9.2" "38.8") false
  = (xmlHeader
     ++ metadataElement "1001_0_9"
     ++ trackOpening "undefined (Volta)"
     ++ trackPoint "38.7" "-9.1"
     ++ trackPoint "38.8" "-9.2"
     ++ trackClosing)%string.
Proof.
  apply (proj1 (createGPX_name_fallback string (fun text : string => text)
                  (Samples.unnamed 1)
                  (twoPoints "-9.1" "38.7" "-9.2" "38.8") false)).
  reflexivity.
Defined.

(* ================================================================== *)
(** ** Trip ordering                                                   *)
(* ================================================================== *)

Section TripOrderingFacts.

Variable localeCompare : string -> string -> Z.

(** On times of day the host's collation is the code unit order. *)
Hypothesis localeCompare_times :
  forall a b, isTime a = true -> isTime b = true ->
              (localeCompare a b ?= 0)%Z = String.compare a b.

Lemma localeCompare_leb (a b : string) :
  isTime a = true -> isTime b = true ->
  (localeCompare a b <=? 0)%Z = String.leb a b.
Proof.
  intros Ha Hb. unfold Z.leb, String.leb.
  now rewrite (localeCompare_times a b Ha Hb).
Qed.

Lemma sortTrips_by_start_time (l : list TripData) :
  Forall (fun x => isTime (startTime x) = true) l ->
  sortTrips localeCompare l
  = stable_sort (fun a b => String.leb (startTime a) (startTime b)) l.
Proof.
  intros Hl. unfold sortTrips, Array_sort. apply stable_sort_ext.
  intros x y Hx Hy. rewrite Forall_forall in Hl.
  apply localeCompare_leb; now apply Hl.
Qed.

End TripOrderingFacts.

(** C6.  On a host whose [localeCompare] orders times of day written
    HH:MM:SS as their code units do, trip ordering returns a permutation of
    its input in which start times never decrease, and the triples that
    share a start time keep their input order. *)
Theorem sortTrips_stable_sorted
  (localeCompare : string -> string -> Z) (allTrips : list TripData) :
  (forall a b, isTime a = true -> isTime b = true ->
               (localeCompare a b ?= 0)%Z = String.compare a b) ->
  Forall (fun x => isTime (startTime x) = true) allTrips ->
  Permutation allTrips (sortTrips localeCompare allTrips)
  /\ StronglySorted startTimeLe (sortTrips localeCompare allTrips)
  /\ forall t,
       startingAt t (sortTrips localeCompare allTrips) = startingAt t allTrips.
Proof.
  intros Hlc Htimes. split; [apply stable_sort_perm|].
  rewrite sortTrips_by_start_time by assumption. split.
  - apply stable_sort_sorted.
    + intros x y. apply string_leb_false.
    + intros x y z. apply string_leb_trans.
  - intros t. apply stable_sort_stable.
    intros x y Hx Hy. apply String.eqb_eq in Hx, Hy.
    rewrite Hx, Hy. apply string_leb_refl.
Qed.

Lemma sortTrips_stable_sorted_witness :
  Permutation Samples.departures
    (sortTrips Samples.codeUnitCompare Samples.departures)
  /\ StronglySorted startTimeLe
       (sortTrips Samples.codeUnitCompare Samples.departures)
  /\ forall t,
       startingAt t (sortTrips Samples.codeUnitCompare Samples.departures)
       = startingAt t Samples.departures.
Proof.
  apply (sortTrips_stable_sorted Samples.codeUnitCompare Samples.departures).
  - intros a b _ _. unfold Samples.codeUnitCompare.
    destruct (String.compare a b); reflexivity.
  - repeat constructor.
Defined.

(* ================================================================== *)
(** ** Direction labels                                                *)
(* ================================================================== *)

(** The last entry of a non-empty array is at index [length - 1]. *)
Lemma nth_error_last (B : Type) (l : list B) (e : B) (r : list B) :
  rev l = e :: r -> nth_error l (List.length l - 1) = Some e.
Proof.
  intros H. apply (f_equal (@rev B)) in H. rewrite rev_involutive in H.
  subst l. simpl. rewrite length_app. simpl.
  replace (List.length (rev r) + 1 - 1) with (List.length (rev r)) by lia.
  rewrite nth_error_app2 by lia. now rewrite Nat.sub_diag.
Qed.

(** One pattern: lines 259-266.  A pattern with an empty path leaves the
    tally as it is, and no property of [undefined] is read. *)
Lemma countVote_eq (counts : JSObject) (p : Pattern) :
  countVote counts p = Ok (fold_left castVote (voteOf p) counts).
Proof.
  unfold countVote, voteOf.
  unfold truthy at 1, Truthy_array. cbn [andb].
  destruct (rev (path p)) as [|e r] eqn:E.
  - apply (f_equal (@rev PathEntry)) in E. rewrite rev_involutive in E.
    rewrite E. reflexivity.
  - assert (Hlen : (0 <? List.length (path p))%nat = true).
    { destruct (path p); [discriminate E|reflexivity]. }
    rewrite Hlen, (nth_error_last _ _ _ _ E). reflexivity.
Qed.

Lemma forEach_countVote (ps : list Pattern) :
  forall counts,
    forEach countVote ps counts
    = Ok (fold_left castVote (flat_map voteOf ps) counts).
Proof.
  induction ps as [|p ps IH]; intros counts; [reflexivity|].
  cbn [forEach flat_map]. rewrite countVote_eq. cbn [bind].
  now rewrite IH, fold_left_app.
Qed.

(** *** Own properties *)

Lemma getOwn_defineOwn_same (o : JSObject) (k : string) (v : JSValue) :
  getOwn (defineOwn o k v) k = Some v.
Proof.
  induction o as [|[k' v'] o IH]; simpl.
  - now rewrite String.eqb_refl.
  - destruct (String.eqb k' k) eqn:E; simpl; rewrite E; auto.
Qed.

Lemma getOwn_defineOwn_other (o : JSObject) (k k' : string) (v : JSValue) :
  k' <> k -> getOwn (defineOwn o k' v) k = getOwn o k.
Proof.
  intros Hne. induction o as [|[k0 v0] o IH]; simpl.
  - apply String.eqb_neq in Hne. now rewrite Hne.
  - destruct (String.eqb k0 k') eqn:E; simpl.
    + apply String.eqb_eq in E. subst k0.
      apply String.eqb_neq in Hne. now rewrite Hne.
    + destruct (String.eqb k0 k); auto.
Qed.

Lemma not_inherited_proto (k : string) :
  includes Object_prototype k = false -> String.eqb k "__proto__" = false.
Proof.
  intros H. apply String.eqb_neq. intros ->. discriminate H.
Qed.

(** The tally of a name that [Object.prototype] does not know. *)
Lemma castVote_getOwn (counts : JSObject) (k k' : string) (w : Z) :
  includes Object_prototype k = false ->
  getOwn (castVote counts (k', w)) k
  = if String.eqb k' k
    then Some (match getOwn counts k with
               | Some v => or_zero_plus v w
               | None => JSNumber (0 + w)
               end)
    else getOwn counts k.
Proof.
  intros Hk. unfold castVote, Put. cbn [fst snd].
  destruct (String.eqb k' k) eqn:E.
  - apply String.eqb_eq in E. subst k'.
    rewrite (not_inherited_proto _ Hk), getOwn_defineOwn_same.
    unfold Get. rewrite Hk. now destruct (getOwn counts k).
  - apply String.eqb_neq in E.
    destruct (String.eqb k' "__proto__"); [reflexivity|].
    now apply getOwn_defineOwn_other.
Qed.

Lemma or_zero_plus_number (n w : Z) :
  or_zero_plus (JSNumber n) w = JSNumber (n + w).
Proof.
  unfold or_zero_plus, truthy, Truthy_Z.
  destruct (Z.eqb_spec n 0) as [->|]; reflexivity.
Qed.

Lemma fold_castVote_getOwn (k : string) (vs : list (string * Z)) :
  includes Object_prototype k = false ->
  forall counts,
    (getOwn counts k = None \/ exists n, getOwn counts k = Some (JSNumber n)) ->
    getOwn (fold_left castVote vs counts) k
    = match getOwn counts k with
      | Some (JSNumber n) => Some (JSNumber (n + total k vs))
      | _ => if includes (map fst vs) k
             then Some (JSNumber (total k vs)) else None
      end.
Proof.
  intros Hk. induction vs as [|[k' w] vs IH]; intros counts Hc.
  - simpl. destruct Hc as [->|[n ->]]; [reflexivity|].
    now rewrite Z.add_0_r.
  - cbn [fold_left]. rewrite IH; rewrite (castVote_getOwn _ _ _ _ Hk).
    + cbn [map fst includes existsb total]. fold (includes (map fst vs) k).
      rewrite (String.eqb_sym k k').
      destruct (String.eqb k' k) eqn:E.
      * destruct Hc as [->|[n ->]].
        -- cbn [orb]. now rewrite Z.add_0_l.
        -- now rewrite or_zero_plus_number, Z.add_assoc.
      * destruct Hc as [->|[n ->]]; reflexivity.
    + destruct (String.eqb k' k).
      * right. destruct Hc as [->|[n ->]]; [now eexists|].
        rewrite or_zero_plus_number. now eexists.
      * assumption.
Qed.

(** The accumulated tally of a name, read as the loop reads it. *)
Lemma tally_Get (k : string) (vs : list (string * Z)) :
  includes Object_prototype k = false ->
  Get (fold_left castVote vs []) k
  = if includes (map fst vs) k then JSNumber (total k vs) else JSUndefined.
Proof.
  intros Hk. unfold Get.
  rewrite (fold_castVote_getOwn k vs Hk []) by now left.
  simpl getOwn. cbv iota.
  destruct (includes (map fst vs) k); [reflexivity|now rewrite Hk].
Qed.

(** C1, as amended.  A pattern of the selected direction with a non-empty
    path votes for the name of its last stop with the number of its trips as
    weight: the tally of that name grows by exactly that number, which is 0
    for a pattern without trips (the name is entered in the tally all the
    same).  Over all patterns of the direction the tally of a name is the sum
    of the trip counts of the patterns that end there.  Names that collide
    with a property of [Object.prototype] are left aside. *)
Theorem countVote_weight :
  (forall (counts : JSObject) (p : Pattern) (e : PathEntry)
          (r : list PathEntry) (n : Z),
     rev (path p) = e :: r ->
     includes Object_prototype (name (stop e)) = false ->
     Get counts (name (stop e)) = JSNumber n
     \/ (Get counts (name (stop e)) = JSUndefined /\ n = 0%Z) ->
     exists counts',
       countVote counts p = Ok counts'
       /\ Get counts' (name (stop e))
          = JSNumber (n + Z.of_nat (List.length (trips p))))
  /\ (forall (ps : list Pattern) (d : Z) (k : string),
        includes Object_prototype k = false ->
        exists counts,
          forEach countVote (ofDirection d ps) [] = Ok counts
          /\ Get counts k
             = if includes (map fst (votes ps d)) k
               then JSNumber (total k (votes ps d)) else JSUndefined).
Proof.
  split.
  - intros counts p e r n Hlast Hk Hn.
    exists (castVote counts (name (stop e), Z.of_nat (List.length (trips p)))).
    split.
    + rewrite countVote_eq. unfold voteOf. rewrite Hlast. reflexivity.
    + unfold Get at 1. rewrite (castVote_getOwn _ _ _ _ Hk), String.eqb_refl.
      unfold Get in Hn. rewrite Hk in Hn.
      destruct (getOwn counts (name (stop e))) as [v|].
      * destruct Hn as [->|[-> ->]]; [apply or_zero_plus_number|reflexivity].
      * destruct Hn as [Hn|[_ ->]]; [discriminate Hn|reflexivity].
  - intros ps d k Hk. exists (fold_left castVote (votes ps d) []). split.
    + apply forEach_countVote.
    + now apply tally_Get.
Qed.

Lemma countVote_weight_witness :
  exists counts,
    forEach countVote (ofDirection 0 [Samples.patternA; Samples.idle]) []
    = Ok counts
    /\ Get counts "X"
       = if includes
              (map fst (votes [Samples.patternA; Samples.idle] 0)) "X"
         then JSNumber (total "X" (votes [Samples.patternA; Samples.idle] 0))
         else JSUndefined.
Proof.
  apply (proj2 countVote_weight [Samples.patternA; Samples.idle] 0%Z "X").
  reflexivity.
Defined.

(** C1 as stated fails: a pattern without trips adds 0 to the tally of its
    destination, not 1, and so loses against a pattern with a single trip
    that is counted after it. *)
Lemma countVote_zero_trips_weight_zero :
  trips Samples.idle = []
  /\ claimedWeight Samples.idle = 1%Z
  /\ forEach countVote [Samples.idle] [] = Ok [ ("X", JSNumber 0) ]
  /\ getDestinationName [Samples.idle; Samples.busy] 0 = Ok "Y".
Proof.
  repeat split.
Qed.

(** *** The tally object of ordinary names *)

Lemma defineOwn_keys (o : JSObject) (k : string) (v : JSValue) :
  map fst (defineOwn o k v) = Set_add (map fst o) k.
Proof.
  unfold Set_add, includes.
  induction o as [|[k' v'] o IH]; [reflexivity|].
  cbn [defineOwn map fst existsb]. rewrite (String.eqb_sym k k').
  destruct (String.eqb k' k); [reflexivity|].
  cbn [map fst orb]. rewrite IH.
  now destruct (existsb (String.eqb k) (map fst o)).
Qed.

Lemma ordinary_not_proto (k : string) :
  ordinaryName k = true -> includes Object_prototype k = false.
Proof.
  unfold ordinaryName. intros H. apply andb_true_iff in H.
  destruct H as [_ H]. now apply negb_true_iff in H.
Qed.

Lemma ordinary_not_index (k : string) :
  ordinaryName k = true -> is_array_index k = false.
Proof.
  unfold ordinaryName. intros H. apply andb_true_iff in H.
  destruct H as [H _]. now apply negb_true_iff in H.
Qed.

Lemma fold_castVote_keys (vs : list (string * Z)) :
  Forall (fun v => ordinaryName (fst v) = true) vs ->
  forall counts,
    map fst (fold_left castVote vs counts)
    = fold_left Set_add (map fst vs) (map fst counts).
Proof.
  induction 1 as [|[k w] vs Hk _ IH]; intros counts; [reflexivity|].
  cbn [fold_left map fst]. rewrite IH. f_equal.
  unfold castVote, Put. cbn [fst snd] in *.
  rewrite (not_inherited_proto _ (ordinary_not_proto _ Hk)).
  apply defineOwn_keys.
Qed.

Lemma Set_add_NoDup (s : list string) (x : string) :
  NoDup s -> NoDup (Set_add s x).
Proof.
  intros Hs. unfold Set_add. destruct (includes s x) eqn:E; [assumption|].
  apply includes_false in E.
  apply NoDup_rev in Hs. rewrite <- (rev_involutive (s ++ [x])).
  apply NoDup_rev. rewrite rev_app_distr. simpl. constructor.
  - now rewrite <- in_rev.
  - assumption.
Qed.

Lemma fold_Set_add_NoDup (l s : list string) :
  NoDup s -> NoDup (fold_left Set_add l s).
Proof.
  revert s. induction l as [|x l IH]; intros s Hs; [assumption|].
  simpl. apply IH. now apply Set_add_NoDup.
Qed.

Lemma getOwn_NoDup (o : JSObject) (k : string) (v : JSValue) :
  NoDup (map fst o) -> In (k, v) o -> getOwn o k = Some v.
Proof.
  induction o as [|[k' v'] o IH]; intros Hnd Hin; [destruct Hin|].
  simpl in Hnd. inversion Hnd as [|? ? Hk' Hnd']; subst.
  simpl. destruct Hin as [E|Hin].
  - inversion E; subst. now rewrite String.eqb_refl.
  - destruct (String.eqb_spec k' k) as [->|_].
    + exfalso. apply Hk'. now apply (in_map fst) in Hin.
    + now apply IH.
Qed.

Lemma object_by_keys (o : JSObject) (f : string -> JSValue) :
  (forall k v, In (k, v) o -> v = f k) ->
  o = map (fun k => (k, f k)) (map fst o).
Proof.
  induction o as [|[k v] o IH]; intros H; [reflexivity|].
  simpl. rewrite <- IH by (intros; apply H; now right).
  now rewrite <- (H k v) by now left.
Qed.

(** With ordinary names only, the loop of lines 259-266 builds the tally of
    the specification: the names in first-encountered order, each with its
    accumulated weight. *)
Lemma fold_castVote_tally (vs : list (string * Z)) :
  Forall (fun v => ordinaryName (fst v) = true) vs ->
  fold_left castVote vs [] = tallyObject vs.
Proof.
  intros Hvs. unfold tallyObject, firstSeen.
  pose proof (fold_castVote_keys vs Hvs []) as Hkeys. simpl in Hkeys.
  rewrite <- Hkeys. apply object_by_keys. intros k v Hin.
  assert (Hnd : NoDup (map fst (fold_left castVote vs []))).
  { rewrite Hkeys. apply fold_Set_add_NoDup. constructor. }
  pose proof (getOwn_NoDup _ _ _ Hnd Hin) as Hget.
  assert (Hk : In k (map fst vs)).
  { apply (in_map fst) in Hin. rewrite Hkeys in Hin.
    apply fold_Set_add_In in Hin. destruct Hin as [[]|Hin]. exact Hin. }
  assert (Hord : includes Object_prototype k = false).
  { apply in_map_iff in Hk. destruct Hk as ([k' w] & <- & Hv).
    rewrite Forall_forall in Hvs. apply ordinary_not_proto.
    apply (Hvs _ Hv). }
  rewrite (fold_castVote_getOwn k vs Hord []) in Hget by now left.
  simpl getOwn in Hget. cbv iota in Hget.
  apply includes_In in Hk. rewrite Hk in Hget. congruence.
Qed.

Lemma filter_none (B : Type) (f : B -> bool) (l : list B) :
  (forall x, In x l -> f x = false) -> filter f l = [].
Proof.
  induction l as [|x l IH]; intros H; [reflexivity|].
  simpl. rewrite (H x) by now left. apply IH. intros; apply H; now right.
Qed.

Lemma filter_all (B : Type) (f : B -> bool) (l : list B) :
  (forall x, In x l -> f x = true) -> filter f l = l.
Proof.
  induction l as [|x l IH]; intros H; [reflexivity|].
  simpl. rewrite (H x) by now left. f_equal. apply IH.
  intros; apply H; now right.
Qed.

(** Without array indices among the keys, [Object.entries] lists the
    properties in creation order. *)
Lemma Object_entries_creation_order (o : JSObject) :
  (forall e, In e o -> is_array_index (fst e) = false) ->
  Object_entries o = o.
Proof.
  intros H. unfold Object_entries.
  rewrite filter_none by assumption.
  rewrite filter_all; [reflexivity|].
  intros e He. now rewrite (H e He).
Qed.

(** The loop of lines 271-276 keeps the first of the greatest counts. *)
Lemma pickBest_first_greatest (es : list (string * Z)) :
  forall (b : string) (m : Z),
    let r := fold_left pickBest
               (map (fun e => (fst e, JSNumber (snd e))) es) (b, m) in
    (r = (b, m) /\ Forall (fun e => (snd e <= m)%Z) es)
    \/ exists l1 n c l2,
         es = l1 ++ (n, c) :: l2 /\ r = (n, c) /\ (m < c)%Z
         /\ Forall (fun e => (snd e < c)%Z) l1
         /\ Forall (fun e => (snd e <= c)%Z) l2.
Proof.
  induction es as [|[n c] es IH]; intros b m; cbn zeta.
  - left. split; [reflexivity|constructor].
  - cbn [map fold_left fst snd].
    change (pickBest (b, m) (n, JSNumber c))
      with (if (c >? m)%Z then (n, c) else (b, m)).
    destruct (c >? m)%Z eqn:E.
    + apply Z.gtb_lt in E. right.
      destruct (IH n c) as [[Hr Hall]|(l1 & n' & c' & l2 & He & Hr & Hlt & H1 & H2)].
      * exists [], n, c, es.
        split; [reflexivity|]. split; [assumption|]. split; [assumption|].
        split; [constructor|assumption].
      * exists ((n, c) :: l1), n', c', l2.
        split; [now rewrite He|]. split; [assumption|]. split; [lia|].
        split; [|assumption]. constructor; [simpl; lia|assumption].
    + assert (Hle : (c <= m)%Z).
      { destruct (Z.gtb_spec c m); [discriminate|lia]. }
      destruct (IH b m) as [[Hr Hall]|(l1 & n' & c' & l2 & He & Hr & Hlt & H1 & H2)].
      * left. split; [assumption|]. now constructor.
      * right. exists ((n, c) :: l1), n', c', l2.
        split; [now rewrite He|]. split; [assumption|]. split; [assumption|].
        split; [|assumption]. constructor; [simpl; lia|assumption].
Qed.

Lemma total_nonneg (k : string) (vs : list (string * Z)) :
  Forall (fun v => (0 <= snd v)%Z) vs -> (0 <= total k vs)%Z.
Proof.
  induction 1 as [|[k' w] vs Hw _ IH]; simpl; [lia|].
  simpl in Hw. destruct (String.eqb k' k); lia.
Qed.

Lemma votes_nonneg (ps : list Pattern) (d : Z) :
  Forall (fun v => (0 <= snd v)%Z) (votes ps d).
Proof.
  unfold votes. apply Forall_flat_map, Forall_forall. intros p _.
  unfold voteOf. destruct (rev (path p)); repeat constructor.
  simpl. lia.
Qed.

Lemma getDestinationName_eq (ps : list Pattern) (d : Z) :
  getDestinationName ps d
  = Ok (fst (fold_left pickBest
               (Object_entries (fold_left castVote (votes ps d) []))
               (defaultLabel d, (-1)%Z))).
Proof.
  unfold getDestinationName, votes, defaultLabel. fold (ofDirection d ps).
  destruct (ofDirection d ps) as [|p l] eqn:E; [reflexivity|].
  cbn [List.length Nat.eqb]. now rewrite forEach_countVote.
Qed.

(** The loops of lines 259-276 on votes for ordinary names. *)
Lemma pickBest_tally (vs : list (string * Z)) (b : string) :
  Forall (fun v => ordinaryName (fst v) = true) vs ->
  Forall (fun v => (0 <= snd v)%Z) vs ->
  vs <> [] ->
  firstGreatest vs
    (fst (fold_left pickBest (Object_entries (fold_left castVote vs []))
            (b, (-1)%Z))).
Proof.
  intros Hord Hpos Hne.
  rewrite (fold_castVote_tally vs Hord).
  assert (Hkeys : forall k, In k (firstSeen (map fst vs)) <-> In k (map fst vs)).
  { intros k. unfold firstSeen. rewrite fold_Set_add_In. simpl. tauto. }
  rewrite Object_entries_creation_order.
  2:{ intros [k v] He. unfold tallyObject in He. apply in_map_iff in He.
      destruct He as (k' & E & Hk'). inversion E; subst k' v. simpl.
      apply Hkeys, in_map_iff in Hk'. destruct Hk' as (v & <- & Hv).
      rewrite Forall_forall in Hord. apply ordinary_not_index, (Hord _ Hv). }
  set (es := map (fun k => (k, total k vs)) (firstSeen (map fst vs))).
  assert (Hes : tallyObject vs = map (fun e => (fst e, JSNumber (snd e))) es).
  { unfold tallyObject, es. rewrite map_map. reflexivity. }
  assert (Hin : forall e, In e es -> snd e = total (fst e) vs).
  { intros e He. apply in_map_iff in He. destruct He as (k & <- & _).
    reflexivity. }
  rewrite Hes.
  destruct (pickBest_first_greatest es b (-1)%Z)
    as [[_ Hall]|(l1 & n & c & l2 & He & Hr & _ & H1 & H2)].
  - exfalso.
    assert (Hsome : exists k, In k (map fst vs)).
    { destruct vs as [|[k w] vs']; [congruence|]. exists k. now left. }
    destruct Hsome as [k Hk].
    assert (Hk' : In (k, total k vs) es).
    { apply in_map_iff. exists k. split; [reflexivity|]. now apply Hkeys. }
    rewrite Forall_forall in Hall. apply Hall in Hk'. simpl in Hk'.
    pose proof (total_nonneg k vs Hpos). lia.
  - rewrite Hr. cbn [fst].
    assert (Hc : c = total n vs).
    { apply (Hin (n, c)). rewrite He. apply in_elt. }
    exists (map fst l1), (map fst l2). split; [|split].
    + transitivity (map fst es).
      * unfold es. rewrite map_map. simpl. now rewrite map_id.
      * rewrite He, map_app. reflexivity.
    + intros m Hm. apply in_map_iff in Hm. destruct Hm as (e & <- & Hm).
      rewrite <- Hc, <- (Hin e) by (rewrite He; apply in_or_app; now left).
      rewrite Forall_forall in H1. now apply H1.
    + intros m Hm. apply in_map_iff in Hm. destruct Hm as (e & <- & Hm).
      rewrite <- Hc, <- (Hin e)
        by (rewrite He; apply in_or_app; right; now right).
      rewrite Forall_forall in H2. now apply H2.
Qed.

(** The label of a direction whose destination names are ordinary keys: the
    default when no pattern of the direction has a stop, and otherwise the
    first name, in first-encountered order, with the greatest accumulated
    weight. *)
Theorem getDestinationName_first_greatest (ps : list Pattern) (d : Z) :
  Forall (fun v => ordinaryName (fst v) = true) (votes ps d) ->
  (votes ps d = [] -> getDestinationName ps d = Ok (defaultLabel d))
  /\ (votes ps d <> [] ->
      exists n,
        getDestinationName ps d = Ok n /\ firstGreatest (votes ps d) n).
Proof.
  intros Hord. rewrite getDestinationName_eq. split.
  - intros ->. reflexivity.
  - intros Hne. eexists. split; [reflexivity|].
    apply pickBest_tally; [assumption|apply votes_nonneg|assumption].
Qed.

Lemma getDestinationName_first_greatest_witness :
  exists n,
    getDestinationName [Samples.patternA; Samples.patternB] 0 = Ok n
    /\ firstGreatest (votes [Samples.patternA; Samples.patternB] 0) n.
Proof.
  apply (getDestinationName_first_greatest
           [Samples.patternA; Samples.patternB] 0%Z).
  - repeat constructor.
  - discriminate.
Defined.

(** The direction classifier never throws; a pattern with an empty path
    leaves the tally untouched; a direction without patterns gets the literal
    label; patterns A (2 trips, ending at X) and B (5 trips, ending at Y)
    give Y. *)
Theorem getDestinationName_total (ps : list Pattern) (d : Z) :
  (exists label, getDestinationName ps d = Ok label)
  /\ (forall counts p, path p = [] -> countVote counts p = Ok counts)
  /\ (ofDirection d ps = [] -> getDestinationName ps d = Ok (defaultLabel d))
  /\ defaultLabel 0 = "Ida" /\ defaultLabel 1 = "Volta"
  /\ getDestinationName [Samples.patternA; Samples.patternB] 0 = Ok "Y"
  /\ getDestinationName [Samples.pathless; Samples.patternA] 0 = Ok "X".
Proof.
  split; [rewrite getDestinationName_eq; eauto|].
  split.
  { intros counts p Hp. rewrite countVote_eq. unfold voteOf.
    now rewrite Hp. }
  split.
  { intros Hnone. rewrite getDestinationName_eq. unfold votes.
    now rewrite Hnone. }
  repeat split.
Qed.

Lemma getDestinationName_total_witness :
  getDestinationName Samples.january 2 = Ok (defaultLabel 2).
Proof.
  apply (getDestinationName_total Samples.january 2%Z). reflexivity.
Defined.

(** C5 on the code.  A destination whose name is a property of
    [Object.prototype] never gets a numeric tally, and the label falls back
    to the literal although the name has all the votes; a destination whose
    name is an array index is listed before the names met earlier, and wins a
    tie against them. *)
Theorem getDestinationName_inherited_names :
  votes [Samples.toConstructor] 0 = [ ("constructor", 3%Z) ]
  /\ forEach countVote [Samples.toConstructor] []
     = Ok [ ("constructor", JSText) ]
  /\ getDestinationName [Samples.toConstructor] 0 = Ok "Ida"
  /\ firstSeen (map fst (votes [Samples.toB; Samples.to7] 0)) = [ "b"; "7" ]
  /\ total "b" (votes [Samples.toB; Samples.to7] 0) = 1%Z
  /\ total "7" (votes [Samples.toB; Samples.to7] 0) = 1%Z
  /\ Object_entries (tallyObject (votes [Samples.toB; Samples.to7] 0))
     = [ ("7", JSNumber 1); ("b", JSNumber 1) ]
  /\ getDestinationName [Samples.toB; Samples.to7] 0 = Ok "7".
Proof.
  repeat split.
Qed.

(* ================================================================== *)
(** ** Further properties of the service calendar resolver             *)
(* ================================================================== *)

(** Adding dates that the set already holds changes nothing. *)
Lemma fold_Set_add_absorb (l s : list string) :
  (forall x, In x l -> In x s) -> fold_left Set_add l s = s.
Proof.
  revert s. induction l as [|x l IH]; intros s H; [reflexivity|].
  simpl. unfold Set_add at 2.
  assert (Hx : includes s x = true) by (apply includes_In, H; now left).
  rewrite Hx. apply IH. intros y Hy. apply H. now right.
Qed.

(** The candidate dates that [getTripsForDate] collects do not depend on the
    date asked for: they have no duplicate, they are the service dates of the
    trips of the direction, and a second pass over the catalogue, whatever
    its date, leaves the set as the first pass built it. *)
Theorem getTripsForDate_collects_once
  (ps : list Pattern) (d : Z) (date date' : string) :
  exists ts ts' A,
    getTripsForDate ps d date [] = Ok (ts, A)
    /\ getTripsForDate ps d date' A = Ok (ts', A)
    /\ NoDup A
    /\ (forall x,
          In x A <->
          exists p t,
            In p ps /\ direction p = d /\ In t (trips p) /\ In x (dates t)).
Proof.
  exists (scheduledTrips ps d date), (scheduledTrips ps d date'),
    (fold_left Set_add (candidateDates ps d) []).
  split; [apply getTripsForDate_eq|]. split; [|split].
  - rewrite getTripsForDate_eq. f_equal. f_equal.
    apply fold_Set_add_absorb. intros x Hx. now apply collected_dates_In.
  - apply fold_Set_add_NoDup. constructor.
  - intros x. rewrite collected_dates_In. apply candidateDates_In.
Qed.

(** The resolver returns the trips of one date: the request, or the date it
    fell back to. *)
Lemma resolveTrips_used_date (ps : list Pattern) (d : Z) (date : string) :
  exists it used,
    resolveTrips ps d date = Ok it
    /\ allTrips it = scheduledTrips ps d used
    /\ (if isFallback it
        then used <> date /\ In used (candidateDates ps d)
             /\ scheduledTrips ps d date = []
             /\ fallbackDateDisplay it = displayDate used
        else used = date /\ fallbackDateDisplay it = EmptyString).
Proof.
  rewrite resolveTrips_eq. cbv zeta.
  set (A := fold_left Set_add (candidateDates ps d) []).
  set (r := findClosestDate date (Array_sort_default A)).
  destruct ((List.length (scheduledTrips ps d date) =? 0)%nat
            && (0 <? List.length A)%nat && negb (String.eqb r date)) eqn:E.
  - apply andb_true_iff in E. destruct E as [E Hneq].
    apply andb_true_iff in E. destruct E as [Hnone HA].
    apply length_zero_nil in Hnone. apply length_pos_cons in HA.
    apply negb_true_iff, String.eqb_neq in Hneq.
    eexists. exists r. split; [reflexivity|]. cbn [allTrips isFallback
      fallbackDateDisplay]. split; [reflexivity|].
    split; [assumption|]. split; [|split; [assumption|reflexivity]].
    apply collected_dates_In. now apply findClosestDate_In.
  - eexists. exists date. split; [reflexivity|]. cbn [allTrips isFallback
      fallbackDateDisplay]. split; [reflexivity|].
    split; reflexivity.
Qed.

(** A trip of the trips of a date belongs to the catalogue. *)
Lemma scheduledTrips_catalogue (ps : list Pattern) (d : Z) (used : string)
  (x : TripData) :
  In x (scheduledTrips ps d used) ->
  In (pattern x) ps /\ direction (pattern x) = d
  /\ In (trip x) (trips (pattern x))
  /\ In used (dates (trip x))
  /\ exists first rest,
       schedule (trip x) = first :: rest
       /\ startTime x = arrival_time first.
Proof.
  intros Hx. apply scheduledTrips_In in Hx.
  destruct Hx as (Hrun & Hfirst). apply runningTrips_In in Hrun. tauto.
Qed.

(** Whatever the request, every trip of the itinerary is a trip of a
    catalogue pattern of the selected direction, has a schedule whose first
    arrival is its start time, and runs on one date: the requested date when
    the fallback flag is unset, and otherwise a candidate date other than the
    request, shown with dashes, on which the direction has service while the
    request itself yields no trip. *)
Theorem resolveTrips_sound
  (ps : list Pattern) (d : Z) (date : string) :
  exists it used,
    resolveTrips ps d date = Ok it
    /\ allTrips it = scheduledTrips ps d used
    /\ (forall x,
          In x (allTrips it) ->
          In (pattern x) ps /\ direction (pattern x) = d
          /\ In (trip x) (trips (pattern x))
          /\ In used (dates (trip x))
          /\ exists first rest,
               schedule (trip x) = first :: rest
               /\ startTime x = arrival_time first)
    /\ (if isFallback it
        then used <> date /\ In used (candidateDates ps d)
             /\ scheduledTrips ps d date = []
             /\ fallbackDateDisplay it = displayDate used
        else used = date /\ fallbackDateDisplay it = EmptyString).
Proof.
  destruct (resolveTrips_used_date ps d date)
    as (it & used & Hres & Hall & Hflag).
  exists it, used. split; [assumption|]. split; [assumption|].
  split; [|assumption].
  intros x Hx. rewrite Hall in Hx.
  now apply scheduledTrips_catalogue.
Qed.

(** Asking for the date that the resolver fell back to gives the same trips,
    this time without the fallback flag. *)
Theorem resolveTrips_fallback_fixpoint
  (ps : list Pattern) (d : Z) (date : string) (it : Itinerary) :
  resolveTrips ps d date = Ok it ->
  isFallback it = true ->
  exists r,
    fallbackDateDisplay it = displayDate r
    /\ r <> date
    /\ resolveTrips ps d r
       = Ok {| allTrips := allTrips it; isFallback := false;
               fallbackDateDisplay := EmptyString |}.
Proof.
  intros Hres Hfb.
  destruct (resolveTrips_used_date ps d date)
    as (it' & used & Hres' & Hall & Hflag).
  rewrite Hres in Hres'. inversion Hres'; subst it'. rewrite Hfb in Hflag.
  destruct Hflag as (Hneq & Hin & _ & Hdisp).
  exists used. split; [assumption|]. split; [assumption|].
  rewrite Hall. now apply resolveTrips_candidate.
Qed.

Lemma resolveTrips_fallback_fixpoint_witness :
  exists r,
    "2024-01-01" = displayDate r
    /\ r <> "20240103"
    /\ resolveTrips Samples.january 0 r
       = Ok {| allTrips := scheduledTrips Samples.january 0 "20240101";
               isFallback := false; fallbackDateDisplay := EmptyString |}.
Proof.
  apply (resolveTrips_fallback_fixpoint Samples.january 0%Z "20240103"
           {| allTrips := scheduledTrips Samples.january 0 "20240101";
              isFallback := true; fallbackDateDisplay := "2024-01-01" |});
    reflexivity.
Defined.

(** [findClosestDate] returns the request for an empty array and an element
    of the array otherwise; on a sorted array it returns a request that is
    in the array unchanged, and applying it to its own result changes
    nothing. *)
Theorem findClosestDate_closure (t : string) (A : list string) :
  findClosestDate t [] = t
  /\ (A <> [] -> In (findClosestDate t A) A)
  /\ (In t A -> findClosestDate t (Array_sort_default A) = t)
  /\ findClosestDate (findClosestDate t (Array_sort_default A))
       (Array_sort_default A)
     = findClosestDate t (Array_sort_default A).
Proof.
  split; [reflexivity|]. split; [|split].
  - intros Hne. unfold findClosestDate.
    destruct A as [|a A]; [congruence|]. cbn [List.length Nat.eqb].
    set (P := filter (fun x => String.leb x t) (a :: A)).
    destruct (0 <? List.length P)%nat eqn:EP.
    + assert (HP : In (nth (List.length P - 1) P EmptyString) P).
      { apply nth_In. apply Nat.ltb_lt in EP. lia. }
      unfold P in HP at 2. apply filter_In in HP. tauto.
    + now left.
  - apply findClosestDate_member.
  - destruct A as [|a A]; [reflexivity|].
    apply findClosestDate_member, findClosestDate_In. discriminate.
Qed.

Lemma findClosestDate_closure_witness :
  In (findClosestDate "20240103" ["20240110"; "20240101"; "20240105"])
     ["20240110"; "20240101"; "20240105"].
Proof.
  apply (findClosestDate_closure "20240103"
           ["20240110"; "20240101"; "20240105"]).
  discriminate.
Defined.

(* ================================================================== *)
(** ** Further properties of trip ordering and of the serializer       *)
(* ================================================================== *)

Lemma insert_sorted_least (B : Type) (le : B -> B -> bool) (x : B)
  (l : list B) :
  Forall (fun y => le x y = true) l -> insert_sorted le x l = x :: l.
Proof.
  intros H. destruct l as [|y l]; [reflexivity|].
  simpl. inversion H as [|? ? Hy _]; subst. now rewrite Hy.
Qed.

(** A sorted array is left as it is. *)
Lemma stable_sort_sorted_id (B : Type) (le : B -> B -> bool) (l : list B) :
  StronglySorted (fun a b => le a b = true) l -> stable_sort le l = l.
Proof.
  induction 1 as [|x l Hl IH Hx]; [reflexivity|].
  simpl. rewrite IH. now apply insert_sorted_least.
Qed.

(** On a host whose [localeCompare] orders times of day as their code units
    do, ordering an itinerary twice gives what ordering it once gives, and an
    itinerary whose start times already ascend is returned unchanged. *)
Theorem sortTrips_idempotent
  (localeCompare : string -> string -> Z) (allTrips : list TripData) :
  (forall a b, isTime a = true -> isTime b = true ->
               (localeCompare a b ?= 0)%Z = String.compare a b) ->
  Forall (fun x => isTime (startTime x) = true) allTrips ->
  sortTrips localeCompare (sortTrips localeCompare allTrips)
  = sortTrips localeCompare allTrips
  /\ (StronglySorted startTimeLe allTrips ->
      sortTrips localeCompare allTrips = allTrips).
Proof.
  intros Hlc Htimes.
  assert (Hid : forall l,
             Forall (fun x => isTime (startTime x) = true) l ->
             StronglySorted startTimeLe l -> sortTrips localeCompare l = l).
  { intros l Hl Hs. rewrite sortTrips_by_start_time by assumption.
    now apply stable_sort_sorted_id. }
  split; [|now apply Hid].
  apply Hid.
  - rewrite Forall_forall in Htimes |- *. intros x Hx. apply Htimes.
    unfold sortTrips, Array_sort in Hx.
    apply (Permutation_in x (Permutation_sym (stable_sort_perm _ _ allTrips))
             Hx).
  - rewrite sortTrips_by_start_time by assumption.
    apply stable_sort_sorted.
    + intros x y. apply string_leb_false.
    + intros x y z. apply string_leb_trans.
Qed.

Lemma sortTrips_idempotent_witness :
  sortTrips Samples.codeUnitCompare
    (sortTrips Samples.codeUnitCompare Samples.departures)
  = sortTrips Samples.codeUnitCompare Samples.departures
  /\ (StronglySorted startTimeLe Samples.departures ->
      sortTrips Samples.codeUnitCompare Samples.departures
      = Samples.departures).
Proof.
  apply (sortTrips_idempotent Samples.codeUnitCompare Samples.departures).
  - intros a b _ _. unfold Samples.codeUnitCompare.
    destruct (String.compare a b); reflexivity.
  - repeat constructor.
Defined.

(** The document depends on the pattern through its [short_name], its [id],
    whether its direction is 0 and, when stops are requested, the stops of
    its path that have both coordinates: two patterns that agree on these
    give the same document, whatever their trips, line, route, shape
    reference or stops without coordinates. *)
Theorem createGPX_reads
  (number : Type) (Number_toString : number -> string)
  (p q : Pattern) (shape : Shape number) (includeStops : bool) :
  short_name p = short_name q ->
  id p = id q ->
  Z.eqb (direction p) 0 = Z.eqb (direction q) 0 ->
  (includeStops = true ->
   filter hasCoordinates (path p) = filter hasCoordinates (path q)) ->
  createGPX Number_toString p shape includeStops
  = createGPX Number_toString q shape includeStops.
Proof.
  intros Hs Hi Hd Hp. rewrite !createGPX_structure.
  unfold waypoints, directionName. rewrite Hs, Hi, Hd.
  destruct includeStops; [now rewrite Hp|reflexivity].
Qed.

Lemma createGPX_reads_witness :
  createGPX (fun text : string => text) Samples.patternA
    (twoPoints "-9.1" "38.7" "-9.2" "38.8") true
  = createGPX (fun text : string => text)
      (Samples.patternOf "A" 0 (Samples.pathTo "X") [])
      (twoPoints "-9.1" "38.7" "-9.2" "38.8") true.
Proof.
  apply (createGPX_reads string (fun text : string => text)); reflexivity.
Defined.

(* ================================================================== *)
(** ** Counting the elements of a track file                           *)
(* ================================================================== *)

Import GpxText.

Lemma joinAll_app (l l' : list string) :
  joinAll (l ++ l') = (joinAll l ++ joinAll l')%string.
Proof.
  induction l as [|s l IH]; simpl; [reflexivity|].
  now rewrite IH, append_assoc.
Qed.

Lemma render_app (l l' : list Piece) :
  render (l ++ l') = (render l ++ render l')%string.
Proof. unfold render. now rewrite map_app, joinAll_app. Qed.

Lemma joinAll_flat_map (B : Type) (f : B -> string) (g : B -> list Piece)
  (l : list B) :
  (forall x, f x = render (g x)) ->
  joinAll (map f l) = render (flat_map g l).
Proof.
  intros H. induction l as [|x l IH]; [reflexivity|].
  cbn [map flat_map joinAll fold_right]. rewrite render_app, <- IH, H.
  reflexivity.
Qed.

Lemma waypointElement_pieces (e : PathEntry) :
  waypointElement e = render (waypointPieces e).
Proof.
  unfold waypointElement, waypointPieces, render.
  cbn [map pieceText joinAll fold_right].
  repeat rewrite append_assoc. now rewrite append_nil_r.
Qed.

Lemma trackPoint_pieces (number : Type) (Number_toString : number -> string)
  (c : number * number) :
  trackPoint (Number_toString (snd c)) (Number_toString (fst c))
  = render (pointPieces Number_toString c).
Proof.
  unfold trackPoint, pointPieces, render.
  cbn [map pieceText joinAll fold_right].
  repeat rewrite append_assoc. now rewrite append_nil_r.
Qed.

(** The document is the text of its pieces. *)
Lemma createGPX_pieces (number : Type) (Number_toString : number -> string)
  (pattern : Pattern) (shape : Shape number) (includeStops : bool) :
  createGPX Number_toString pattern shape includeStops
  = render (documentPieces Number_toString pattern shape includeStops).
Proof.
  rewrite createGPX_structure. unfold documentPieces.
  rewrite !render_app.
  unfold trackPoints.
  rewrite (joinAll_flat_map _ _ (pointPieces Number_toString)
             (coordinates shape))
    by (intros c; apply trackPoint_pieces).
  assert (Hw : waypoints pattern includeStops
               = render (if includeStops
                         then flat_map waypointPieces
                                (filter hasCoordinates (path pattern))
                         else [])).
  { unfold waypoints. destruct includeStops; [|reflexivity].
    apply joinAll_flat_map. apply waypointElement_pieces. }
  rewrite Hw.
  unfold render. cbn [map pieceText joinAll fold_right].
  unfold beforeMetadataName, metadataElement, trackOpening.
  repeat rewrite append_assoc.
  repeat match goal with
         | |- context [(EmptyString ++ ?y)%string] =>
             change (EmptyString ++ y)%string with y
         end.
  reflexivity.
Qed.

(** Occurrences of a tag are those of the literal pieces. *)
Lemma occurrences_render (needle : string) (pieces : list Piece) :
  forallb (pieceOk (String "<" needle)) pieces = true ->
  occurrences (String "<" needle) (render pieces)
  = literalCount (String "<" needle) pieces.
Proof.
  induction pieces as [|[s|s] pieces IH]; intros H; [reflexivity| |];
    cbn [forallb pieceOk] in H; apply andb_true_iff in H;
    destruct H as [Hs H];
    change (render (?p :: pieces))
      with ((pieceText p ++ render pieces)%string);
    cbn [pieceText literalCount].
  - now rewrite (occurrences_literal _ _ _ Hs), IH.
  - now rewrite (occurrences_markupFree _ _ _ Hs), IH.
Qed.

Lemma literalCount_app (needle : string) (l l' : list Piece) :
  literalCount needle (l ++ l')
  = literalCount needle l + literalCount needle l'.
Proof.
  induction l as [|[s|s] l IH]; simpl; [reflexivity| |]; rewrite IH; lia.
Qed.

Lemma literalCount_flat_map (needle : string) (B : Type)
  (g : B -> list Piece) (c : nat) (l : list B) :
  (forall x, literalCount needle (g x) = c) ->
  literalCount needle (flat_map g l) = c * List.length l.
Proof.
  intros H. induction l as [|x l IH]; simpl; [lia|].
  rewrite literalCount_app, H, IH. lia.
Qed.

Lemma forallb_flat_map (B C : Type) (ok : C -> bool) (g : B -> list C)
  (l : list B) :
  (forall x, In x l -> forallb ok (g x) = true) ->
  forallb ok (flat_map g l) = true.
Proof.
  induction l as [|x l IH]; intros H; [reflexivity|].
  simpl. rewrite forallb_app, (H x) by now left.
  apply IH. intros y Hy. apply H. now right.
Qed.

(** The decimal text of an integer has no angle bracket. *)
Lemma string_of_uint_markupFree (u : Decimal.uint) :
  markupFree (NilEmpty.string_of_uint u) = true.
Proof. induction u; simpl; auto. Qed.

Lemma Z_toString_markupFree (n : Z) : markupFree (Z_toString n) = true.
Proof.
  unfold Z_toString, NilZero.string_of_int, NilZero.string_of_uint.
  destruct (Z.to_int n) as [u|u]; destruct u; simpl;
    auto using string_of_uint_markupFree.
Qed.

Lemma directionName_markupFree (p : Pattern) :
  markupFree (directionName p) = true.
Proof. unfold directionName. now destruct (Z.eqb (direction p) 0). Qed.

(** No occurrence of a tag straddles two pieces of a document whose fields
    have no angle bracket. *)
Lemma documentPieces_ok (needle : string)
  (number : Type) (Number_toString : number -> string)
  (pattern : Pattern) (shape : Shape number) (includeStops : bool) :
  forallb (selfContained needle) documentLiterals = true ->
  markupFree (or_else (short_name pattern) (id pattern)) = true ->
  markupFree (template (short_name pattern)) = true ->
  forallb (pointMarkupFree Number_toString) (coordinates shape) = true ->
  (includeStops = true -> forallb stopMarkupFree (path pattern) = true) ->
  forallb (pieceOk needle)
    (documentPieces Number_toString pattern shape includeStops) = true.
Proof.
  intros Hlit Hn1 Hn2 Hpts Hstops.
  rewrite forallb_forall in Hlit.
  assert (L : forall s, In s documentLiterals -> selfContained needle s = true)
    by exact Hlit.
  unfold documentPieces. rewrite !forallb_app.
  assert (H1 : forallb (pieceOk needle)
                 [ Lit beforeMetadataName;
                   Field (or_else (short_name pattern) (id pattern));
                   Lit ("</name>" ++ nl ++ "  </metadata>" ++ nl) ] = true).
  { cbn [forallb pieceOk]. rewrite Hn1, !L by (simpl; tauto). reflexivity. }
  assert (H2 : forallb (pieceOk needle)
                 (if includeStops
                  then flat_map waypointPieces
                         (filter hasCoordinates (path pattern))
                  else []) = true).
  { destruct includeStops; [|reflexivity].
    apply forallb_flat_map. intros e He. apply filter_In in He.
    destruct He as [He _]. specialize (Hstops eq_refl).
    rewrite forallb_forall in Hstops. specialize (Hstops e He).
    unfold stopMarkupFree in Hstops.
    apply andb_true_iff in Hstops. destruct Hstops as [Hstops Hname].
    apply andb_true_iff in Hstops. destruct Hstops as [Hlat Hlon].
    cbn [waypointPieces forallb pieceOk].
    rewrite Hlat, Hlon, Hname, Z_toString_markupFree, !L by (simpl; tauto).
    reflexivity. }
  assert (H3 : forallb (pieceOk needle)
                 [ Lit ("  <trk>" ++ nl ++ "    <name>");
                   Field (template (short_name pattern));
                   Lit " ("; Field (directionName pattern);
                   Lit (")</name>" ++ nl ++ "    <trkseg>" ++ nl) ] = true).
  { cbn [forallb pieceOk].
    rewrite Hn2, directionName_markupFree, !L by (simpl; tauto).
    reflexivity. }
  assert (H4 : forallb (pieceOk needle)
                 (flat_map (pointPieces Number_toString) (coordinates shape))
               = true).
  { apply forallb_flat_map. intros c Hc.
    rewrite forallb_forall in Hpts. specialize (Hpts c Hc).
    unfold pointMarkupFree in Hpts. apply andb_true_iff in Hpts.
    destruct Hpts as [Hlon Hlat].
    cbn [pointPieces forallb pieceOk].
    rewrite Hlon, Hlat, !L by (simpl; tauto). reflexivity. }
  assert (H5 : forallb (pieceOk needle) [ Lit trackClosing ] = true).
  { cbn [forallb pieceOk]. rewrite L by (simpl; tauto). reflexivity. }
  rewrite H1, H2, H3, H4, H5. reflexivity.
Qed.

(** When the names of the pattern, the fields of its stops and the text of
    the coordinates contain no opening angle bracket, the document contains
    exactly one track point element per shape coordinate, one waypoint
    element per stop that has both coordinates when stops are requested and
    none otherwise, one track and one track segment. *)
Theorem createGPX_element_counts
  (number : Type) (Number_toString : number -> string)
  (pattern : Pattern) (shape : Shape number) (includeStops : bool) :
  markupFree (or_else (short_name pattern) (id pattern)) = true ->
  markupFree (template (short_name pattern)) = true ->
  forallb (pointMarkupFree Number_toString) (coordinates shape) = true ->
  (includeStops = true -> forallb stopMarkupFree (path pattern) = true) ->
  occurrences "<trkpt" (createGPX Number_toString pattern shape includeStops)
  = List.length (coordinates shape)
  /\ occurrences "<wpt" (createGPX Number_toString pattern shape includeStops)
     = (if includeStops
        then List.length (filter hasCoordinates (path pattern)) else 0)
  /\ occurrences "<trk>" (createGPX Number_toString pattern shape includeStops)
     = 1
  /\ occurrences "<trkseg>"
       (createGPX Number_toString pattern shape includeStops) = 1.
Proof.
  intros Hn1 Hn2 Hpts Hstops. rewrite createGPX_pieces.
  repeat split;
    rewrite occurrences_render
      by (apply documentPieces_ok; [reflexivity|assumption..]);
    unfold documentPieces; rewrite !literalCount_app;
    [ rewrite (literalCount_flat_map _ _ _ 1 (coordinates shape))
        by (intros; reflexivity)
    | rewrite (literalCount_flat_map _ _ _ 0 (coordinates shape))
        by (intros; reflexivity)
    | rewrite (literalCount_flat_map _ _ _ 0 (coordinates shape))
        by (intros; reflexivity)
    | rewrite (literalCount_flat_map _ _ _ 0 (coordinates shape))
        by (intros; reflexivity) ];
    destruct includeStops;
    [ rewrite (literalCount_flat_map _ _ _ 0) by (intros; reflexivity) | 
    | rewrite (literalCount_flat_map _ _ _ 1) by (intros; reflexivity) | 
    | rewrite (literalCount_flat_map _ _ _ 0) by (intros; reflexivity) | 
    | rewrite (literalCount_flat_map _ _ _ 0) by (intros; reflexivity) | ];
    cbn [literalCount]; vm_compute occurrences; cbn [literalCount]; lia.
Qed.

Lemma createGPX_element_counts_witness :
  occurrences "<trkpt"
    (createGPX (fun text : string => text) Network.halfLocated
       Network.track true) = 3
  /\ occurrences "<wpt"
       (createGPX (fun text : string => text) Network.halfLocated
          Network.track true) = 2
  /\ occurrences "<trk>"
       (createGPX (fun text : string => text) Network.halfLocated
          Network.track true) = 1
  /\ occurrences "<trkseg>"
       (createGPX (fun text : string => text) Network.halfLocated
          Network.track true) = 1.
Proof.
  apply (createGPX_element_counts string (fun text : string => text)
           Network.halfLocated Network.track true); reflexivity.
Defined.

(* ================================================================== *)
(** ** Dates of the schedule view                                      *)
(* ================================================================== *)

Import MainView.

(** The date of the date picker and the date shown in the fallback notice
    are one notation: removing the dashes of a date written YYYY-MM-DD and
    putting them back gives the same text, and the notice of a compact date
    YYYYMMDD, with its dashes removed, is that date. *)
Theorem dateStr_displayDate_round_trip :
  (forall d, isCompactDate d = true ->
             isDashedDate (displayDate d) = true
             /\ dateStr (displayDate d) = d)
  /\ (forall s, isDashedDate s = true ->
                isCompactDate (dateStr s) = true
                /\ displayDate (dateStr s) = s).
Proof.
  split.
  - intros d H. unfold isCompactDate in H.
    do 8 (destruct d as [|? d]; [discriminate H|]).
    destruct d; [|discriminate H].
    cbn [list_ascii_of_string forallb] in H.
    repeat match type of H with
           | (notDash ?c && _)%bool = true =>
               let Hc := fresh "Hc" in
               apply andb_true_iff in H; destruct H as [Hc H]
           end.
    unfold dateStr, displayDate, isDashedDate.
    cbn [substring String.append list_ascii_of_string forallb removeDashes].
    unfold notDash in *.
    repeat match goal with
           | Hc : negb (Ascii.eqb _ _) = true |- _ =>
               rewrite Hc; apply negb_true_iff in Hc; rewrite Hc
           end.
    split; reflexivity.
  - intros s H. unfold isDashedDate in H.
    do 10 (destruct s as [|? s]; [discriminate H|]).
    destruct s; [|discriminate H].
    cbn [list_ascii_of_string forallb] in H.
    apply andb_true_iff in H. destruct H as [H Hs2].
    apply andb_true_iff in H. destruct H as [H Hs1].
    apply Ascii.eqb_eq in Hs1, Hs2. subst.
    repeat match type of H with
           | (notDash ?c && _)%bool = true =>
               let Hc := fresh "Hc" in
               apply andb_true_iff in H; destruct H as [Hc H]
           end.
    unfold dateStr, isCompactDate. cbn [removeDashes Ascii.eqb Bool.eqb].
    unfold notDash in *.
    repeat match goal with
           | Hc : negb (Ascii.eqb _ _) = true |- _ =>
               apply negb_true_iff in Hc; rewrite Hc
           end.
    cbn [list_ascii_of_string forallb]. unfold notDash.
    repeat match goal with
           | Hc : Ascii.eqb _ _ = false |- _ => rewrite Hc; clear Hc
           end.
    split; reflexivity.
Qed.

Lemma dateStr_displayDate_round_trip_witness :
  isCompactDate (dateStr "2024-01-05") = true
  /\ displayDate (dateStr "2024-01-05") = "2024-01-05".
Proof.
  apply (proj2 dateStr_displayDate_round_trip "2024-01-05"). reflexivity.
Defined.

(* ================================================================== *)
(** ** The catalogue client                                            *)
(* ================================================================== *)

Section ClientFacts.

Variable fetch_pattern : string -> result (Catalog.Response Pattern).

Lemma Promise_all_fetchPattern (ids : list string) :
  Catalog.Promise_all (map (Catalog.fetchPattern fetch_pattern) ids)
  = if existsb (Catalog.rejected fetch_pattern) ids
    then match Catalog.Promise_all
                 (map (Catalog.fetchPattern fetch_pattern) ids) with
         | Throw e => Throw e
         | Ok _ => Throw EmptyString
         end
    else Ok (map (fun id => match Catalog.fetchPattern fetch_pattern id with
                           | Ok r => r
                           | Throw _ => None
                           end) ids).
Proof.
  induction ids as [|id ids IH]; [reflexivity|].
  cbn [map Catalog.Promise_all existsb]. unfold Catalog.rejected at 1.
  destruct (Catalog.fetchPattern fetch_pattern id) as [r|e]; cbn [bind orb].
  - rewrite IH. destruct (existsb (Catalog.rejected fetch_pattern) ids).
    + now destruct (Catalog.Promise_all _).
    + reflexivity.
  - reflexivity.
Qed.

End ClientFacts.

(** [fetchPatterns] is all or nothing on rejections.  When the request of one
    identifier is rejected (the network fails, or a body does not parse) the
    result is empty, whatever the other requests delivered; otherwise it is
    the patterns of the identifiers whose response has a good status, in the
    order of the identifiers, the others being dropped. *)
Theorem fetchPatterns_all_or_nothing
  (fetch_pattern : string -> result (Catalog.Response Pattern))
  (ids : list string) :
  (existsb (Catalog.rejected fetch_pattern) ids = true ->
   Catalog.fetchPatterns fetch_pattern ids = [])
  /\ (existsb (Catalog.rejected fetch_pattern) ids = false ->
      Catalog.fetchPatterns fetch_pattern ids
      = flat_map (Catalog.delivered fetch_pattern) ids)
  /\ List.length (Catalog.fetchPatterns fetch_pattern ids) <= List.length ids.
Proof.
  assert (Hgood : existsb (Catalog.rejected fetch_pattern) ids = false ->
                  Catalog.fetchPatterns fetch_pattern ids
                  = flat_map (Catalog.delivered fetch_pattern) ids).
  { intros H. unfold Catalog.fetchPatterns. cbv zeta.
    rewrite Promise_all_fetchPattern, H. cbn [bind Catalog.try_catch].
    unfold Catalog.nonNull, Catalog.delivered. rewrite flat_map_concat_map,
      map_map, <- flat_map_concat_map.
    apply flat_map_ext. intros id.
    now destruct (Catalog.fetchPattern fetch_pattern id) as [[p|]|e]. }
  assert (Hbad : existsb (Catalog.rejected fetch_pattern) ids = true ->
                 Catalog.fetchPatterns fetch_pattern ids = []).
  { intros H. unfold Catalog.fetchPatterns. cbv zeta.
    rewrite Promise_all_fetchPattern, H.
    now destruct (Catalog.Promise_all _). }
  split; [exact Hbad|]. split; [exact Hgood|].
  destruct (existsb (Catalog.rejected fetch_pattern) ids) eqn:E.
  - rewrite Hbad by reflexivity. simpl. lia.
  - rewrite Hgood by reflexivity. clear.
    induction ids as [|id ids IH]; [simpl; lia|].
    cbn [flat_map]. rewrite length_app. unfold Catalog.delivered at 1.
    destruct (Catalog.fetchPattern fetch_pattern id) as [[p|]|e]; simpl; lia.
Qed.

Lemma fetchPatterns_all_or_nothing_witness :
  Catalog.fetchPatterns Network.patternEndpoint ["A"; "Z"] = []
  /\ Catalog.fetchPatterns Network.patternEndpoint ["B"; "A"]
     = [Samples.patternA].
Proof.
  split.
  - apply (proj1 (fetchPatterns_all_or_nothing Network.patternEndpoint
                    ["A"; "Z"])).
    reflexivity.
  - apply (proj1 (proj2 (fetchPatterns_all_or_nothing Network.patternEndpoint
                           ["B"; "A"]))).
    reflexivity.
Defined.

(* ================================================================== *)
(** ** The selection state                                             *)
(* ================================================================== *)

Section HandlerFacts.

Variable number : Type.
Variable fetchLines : list Catalog.Line.
Variable fetchPatterns : list string -> list Pattern.
Variable fetchShape : string -> option (Shape number).

#[local] Abbreviation Page := (App.Page number).
#[local] Abbreviation coherent := (@App.coherent number).
#[local] Abbreviation handleStartup := (App.handleStartup fetchLines fetchPatterns fetchShape).
#[local] Abbreviation selectLine := (@App.selectLine number fetchPatterns).
#[local] Abbreviation selectTrip := (App.selectTrip fetchShape).
#[local] Abbreviation showShape := (App.showShape fetchShape).
#[local] Abbreviation loadLines := (@App.loadLines number fetchLines).

Lemma coherent_same_selection (p p' : Page) :
  App.selectedTrip (App.state p') = App.selectedTrip (App.state p) ->
  App.selectedPattern (App.state p') = App.selectedPattern (App.state p) ->
  App.selectedShape (App.state p') = App.selectedShape (App.state p) ->
  App.patterns (App.state p') = App.patterns (App.state p) ->
  coherent p -> coherent p'.
Proof.
  unfold App.coherent. intros -> -> -> ->. tauto.
Qed.

Lemma coherent_cleared (p : Page) :
  App.selectedTrip (App.state p) = None ->
  App.selectedPattern (App.state p) = None ->
  App.selectedShape (App.state p) = None ->
  coherent p.
Proof.
  unfold App.coherent. intros -> -> ->.
  repeat split; intros; discriminate.
Qed.

Lemma coherent_selectLine (p : Page) (l : Catalog.Line) (b : bool) :
  coherent (selectLine p l b).
Proof.
  apply coherent_cleared; unfold App.selectLine; destruct b; reflexivity.
Qed.

(** Fetching the shape of the selected pattern keeps the selection
    coherent. *)
Lemma coherent_showShape (p : Page) (shape_id : string) :
  App.selectedPattern (App.state p) <> None ->
  coherent p -> coherent (showShape p shape_id).
Proof.
  intros Hsel (H1 & H2 & H3). unfold App.showShape.
  destruct (fetchShape shape_id) as [shape|]; [|now repeat split].
  repeat split; cbn; auto.
Qed.

Lemma coherent_selectTrip (p : Page) (data : TripData) (b : bool) :
  In (pattern data) (App.patterns (App.state p)) ->
  In (trip data) (trips (pattern data)) ->
  coherent p -> coherent (selectTrip p data b).
Proof.
  intros Hp Ht _. unfold App.selectTrip. cbv zeta.
  apply coherent_showShape.
  - destruct b; cbn; discriminate.
  - destruct b; (repeat split; cbn;
      [ intros t E; inversion E; subst; eauto
      | intros q E; inversion E; subst; assumption
      | discriminate ]).
Qed.

Lemma coherent_patternCardClick (p : Page) (q : Pattern) :
  In q (App.patterns (App.state p)) ->
  coherent (App.patternCardClick fetchShape p q).
Proof.
  intros Hq. unfold App.patternCardClick. cbv zeta.
  apply coherent_showShape; [cbn; discriminate|].
  repeat split; cbn; [discriminate| |discriminate].
  intros q' E. inversion E; subst. assumption.
Qed.

Lemma firstTripData_spec (q : Pattern) (data : TripData) :
  App.firstTripData q = Some data ->
  pattern data = q
  /\ exists rest, trips q = trip data :: rest.
Proof.
  unfold App.firstTripData. destruct (trips q) as [|t rest]; [discriminate|].
  cbn [nth_error]. intros E. inversion E; subst. cbn. eauto.
Qed.

Lemma coherent_handleStartup (p : Page) :
  coherent p -> coherent (handleStartup p).
Proof.
  intros Hp. unfold App.handleStartup. cbv zeta.
  set (p1 := if (List.length (App.lines (App.state p)) =? 0)%nat
             then loadLines p else p).
  assert (H1 : coherent p1).
  { unfold p1. destruct (List.length (App.lines (App.state p)) =? 0)%nat;
      [|assumption].
    now apply (coherent_same_selection p). }
  clearbody p1.
  destruct (if truthy (App.line (App.search p)) then App.line (App.search p)
            else None) as [lineId|]; [|assumption].
  destruct (find _ (App.lines (App.state p1))) as [l|].
  - set (p2 := match App.selectedLine (App.state p1) with
               | Some selected =>
                   if negb (String.eqb (Catalog.Line_id selected)
                                       (Catalog.Line_id l))
                   then selectLine p1 l false else p1
               | None => selectLine p1 l false
               end).
    assert (H2 : coherent p2).
    { unfold p2. destruct (App.selectedLine (App.state p1)) as [selected|];
        [|apply coherent_selectLine].
      destruct (negb _); [apply coherent_selectLine|assumption]. }
    clearbody p2.
    destruct (if truthy (App.active_pattern_id (App.search p))
              then App.active_pattern_id (App.search p) else None)
      as [patternId|]; [|assumption].
    destruct (find _ (App.patterns (App.state p2))) as [q|] eqn:Efind;
      [|assumption].
    destruct (App.firstTripData q) as [data|] eqn:Edata; [|assumption].
    apply find_some in Efind. destruct Efind as [Hq _].
    apply firstTripData_spec in Edata. destruct Edata as (Hpat & rest & Hrest).
    apply coherent_selectTrip.
    + rewrite Hpat. now destruct (negb _).
    + rewrite Hpat, Hrest. now left.
    + destruct (negb _); [|assumption].
      now apply (coherent_same_selection p2).
  - destruct (truthy (App.selectedLine (App.state p1))); [|assumption].
    now apply (coherent_same_selection p1).
Qed.

End HandlerFacts.

(** Every page that the application goes through has a coherent selection,
    whatever the network answers: the selected trip belongs to the selected
    pattern, the selected pattern is one of the loaded patterns of the line,
    and a shape is kept only with a pattern.  (The clicks on trip cards rest
    on [resolveTrips] returning trips of catalogue patterns only.) *)
Theorem reachable_coherent (number : Type) (p : App.Page number) :
  App.reachable p -> App.coherent p.
Proof.
  induction 1 as [fL fP fS today now q shown|fL fP fS p e Hreach IH Hen].
  - apply coherent_handleStartup. now apply coherent_cleared.
  - destruct e as [q|l| | | |m|item|q|value|b]; cbn [App.step].
    + apply coherent_handleStartup. now apply (coherent_same_selection _ p).
    + apply coherent_selectLine.
    + now apply (coherent_same_selection _ p).
    + now apply (coherent_same_selection _ p).
    + now apply (coherent_same_selection _ p).
    + now apply (coherent_same_selection _ p).
    + destruct Hen as (it & Hres & Hin).
      destruct (resolveTrips_used_date (App.patterns (App.state p))
                  (App.direction (App.state p))
                  (dateStr (App.date (App.state p))))
        as (it' & used & Hres' & Hall & _).
      rewrite Hres in Hres'. inversion Hres'; subst it'.
      rewrite Hall in Hin.
      destruct (scheduledTrips_catalogue _ _ _ _ Hin) as (Hp & _ & Ht & _).
      now apply coherent_selectTrip.
    + cbn [App.enabled] in Hen. apply filter_In in Hen.
      now apply coherent_patternCardClick.
    + now apply (coherent_same_selection _ p).
    + assumption.
Qed.

Lemma reachable_coherent_witness :
  App.coherent
    (App.step Network.allLines Network.patternsOf Network.shapeOf
       (App.handleStartup Network.allLines Network.patternsOf Network.shapeOf
          (App.initialPage string "2024-01-05" "08:00"
             {| App.line := Some "1001";
                App.active_pattern_id := Some "1001_0_2" |} false))
       (App.TripClick Network.cardC)).
Proof.
  apply reachable_coherent. apply App.reachable_step.
  - apply App.reachable_init.
  - exists {| allTrips := [Network.cardC]; isFallback := true;
              fallbackDateDisplay := "2024-01-03" |}.
    split; [reflexivity|now left].
Defined.

(** A deep link opened on a fresh page.  When the address names a line of
    the catalogue (by short name or identifier) and a pattern of that line,
    [handleStartup] selects the line, loads its patterns and, if the pattern
    has a trip, selects the pattern with its first trip, puts the direction
    of the view on the direction of the pattern and keeps the shape if it
    arrives.  A pattern without trips is not selected at all. *)
Theorem handleStartup_deep_link
  (number : Type) (fetchLines : list Catalog.Line)
  (fetchPatterns : list string -> list Pattern)
  (fetchShape : string -> option (Shape number))
  (today now : string) (shown : bool) (lineId patternId : string)
  (l : Catalog.Line) (q : Pattern) :
  lineId <> EmptyString -> patternId <> EmptyString ->
  find (fun l' => String.eqb (Catalog.Line_short_name l') lineId
                  || String.eqb (Catalog.Line_id l') lineId) fetchLines
  = Some l ->
  find (fun q' => String.eqb (id q') patternId)
       (fetchPatterns (Catalog.Line_patterns l)) = Some q ->
  let p := App.handleStartup fetchLines fetchPatterns fetchShape
             (App.initialPage number today now
                {| App.line := Some lineId;
                   App.active_pattern_id := Some patternId |} shown) in
  App.selectedLine (App.state p) = Some l
  /\ App.patterns (App.state p) = fetchPatterns (Catalog.Line_patterns l)
  /\ match trips q with
     | t :: _ =>
         App.selectedPattern (App.state p) = Some q
         /\ App.selectedTrip (App.state p) = Some t
         /\ App.direction (App.state p) = direction q
         /\ App.selectedShape (App.state p) = fetchShape (shape_id q)
     | [] =>
         App.selectedPattern (App.state p) = None
         /\ App.selectedTrip (App.state p) = None
         /\ App.direction (App.state p) = 0%Z
         /\ App.selectedShape (App.state p) = None
     end.
Proof.
  intros Hl Hq Hline Hpat p. subst p.
  apply String.eqb_neq in Hl, Hq.
  unfold App.handleStartup, App.initialPage. cbv zeta.
  cbn [App.line App.active_pattern_id App.search App.state App.lines
       List.length Nat.eqb].
  change (truthy (Some lineId)) with (negb (String.eqb lineId EmptyString)).
  change (truthy (Some patternId))
    with (negb (String.eqb patternId EmptyString)).
  rewrite Hl, Hq. cbn [negb].
  cbn [App.loadLines App.with_state App.state App.set_lines App.lines].
  rewrite Hline. cbn [App.selectedLine].
  unfold App.selectLine. cbv zeta.
  cbn [App.with_state App.with_downloadSection App.with_search App.state
       App.search App.downloadSection_shown
       App.set_patterns App.set_direction App.set_selectedShape
       App.set_selectedTrip App.set_selectedPattern App.set_selectedLine
       App.set_lines
       App.lines App.selectedLine App.selectedPattern App.selectedShape
       App.selectedTrip App.patterns App.date App.time App.direction
       App.viewMode]. rewrite Hpat.
  unfold App.firstTripData.
  destruct (trips q) as [|t rest]; cbn [nth_error].
  - repeat split.
  - unfold App.selectTrip, App.showShape. cbv zeta.
    cbn [pattern trip].
    destruct (Z.eqb_spec (direction q) 0) as [E|E]; cbn [negb];
      destruct (fetchShape (shape_id q)); repeat split; cbn; congruence.
Qed.

Lemma handleStartup_deep_link_witness :
  let p := App.handleStartup Network.allLines Network.patternsOf
             Network.shapeOf
             (App.initialPage string "2024-01-05" "08:00"
                {| App.line := Some "1001";
                   App.active_pattern_id := Some "1001_0_2" |} false) in
  App.selectedLine (App.state p) = Some Network.line1001
  /\ App.patterns (App.state p) = Samples.january
  /\ App.selectedPattern (App.state p) = Some Network.volta
  /\ App.selectedTrip (App.state p) = Some Network.tripC
  /\ App.direction (App.state p) = 1%Z
  /\ App.selectedShape (App.state p) = Some Network.track.
Proof.
  apply (handleStartup_deep_link string Network.allLines Network.patternsOf
           Network.shapeOf "2024-01-05" "08:00" false "1001" "1001_0_2"
           Network.line1001 Network.volta);
    [discriminate|discriminate|reflexivity|reflexivity].
Defined.

(** The address without a usable [line] parameter, or with one that names no
    line.  Without the parameter [handleStartup] changes nothing but the list
    of lines, which it loads when it is empty: a selected line stays
    selected.  With a parameter that names no line, a selected line is
    deselected and the download section hidden, while the selected pattern,
    trip and shape stay as they are. *)
Theorem handleStartup_without_line
  (number : Type) (fetchLines : list Catalog.Line)
  (fetchPatterns : list string -> list Pattern)
  (fetchShape : string -> option (Shape number))
  (p : App.Page number) :
  let p1 := if (List.length (App.lines (App.state p)) =? 0)%nat
            then App.loadLines fetchLines p else p in
  (truthy (App.line (App.search p)) = false ->
   App.handleStartup fetchLines fetchPatterns fetchShape p = p1)
  /\ (forall lineId selected,
        App.line (App.search p) = Some lineId -> lineId <> EmptyString ->
        find (fun l' => String.eqb (Catalog.Line_short_name l') lineId
                        || String.eqb (Catalog.Line_id l') lineId)
             (App.lines (App.state p1)) = None ->
        App.selectedLine (App.state p) = Some selected ->
        let p' := App.handleStartup fetchLines fetchPatterns fetchShape p in
        App.selectedLine (App.state p') = None
        /\ App.lines (App.state p') = fetchLines
        /\ App.downloadSection_shown p' = false
        /\ App.selectedPattern (App.state p')
           = App.selectedPattern (App.state p)
        /\ App.selectedTrip (App.state p') = App.selectedTrip (App.state p)
        /\ App.selectedShape (App.state p')
           = App.selectedShape (App.state p)
        /\ App.patterns (App.state p') = App.patterns (App.state p)).
Proof.
  intros p1. split.
  - intros Hno. unfold App.handleStartup. cbv zeta. now rewrite Hno.
  - intros lineId selected Hline Hne Hfind Hsel p'. subst p'.
    unfold App.handleStartup. cbv zeta. fold p1.
    rewrite Hline.
    change (truthy (Some lineId)) with (negb (String.eqb lineId EmptyString)).
    apply String.eqb_neq in Hne. rewrite Hne. cbn [negb].
    rewrite Hfind.
    assert (Hsel1 : App.selectedLine (App.state p1) = Some selected).
    { unfold p1. now destruct (List.length _ =? 0)%nat. }
    rewrite Hsel1. cbn [truthy Truthy_undefinable Catalog.Truthy_Line].
    unfold p1. destruct (List.length _ =? 0)%nat; repeat split.
Qed.

Lemma handleStartup_without_line_witness :
  App.handleStartup Network.allLines Network.patternsOf Network.shapeOf
    (Network.onLine1001 {| App.line := None; App.active_pattern_id := None |})
  = Network.onLine1001 {| App.line := None; App.active_pattern_id := None |}
  /\ (let p' := App.handleStartup Network.allLines Network.patternsOf
                  Network.shapeOf
                  (Network.onLine1001
                     {| App.line := Some "9999";
                        App.active_pattern_id := None |}) in
      App.selectedLine (App.state p') = None
      /\ App.lines (App.state p') = Network.allLines
      /\ App.downloadSection_shown p' = false
      /\ App.selectedPattern (App.state p') = Some Network.volta
      /\ App.selectedTrip (App.state p') = Some Network.tripC
      /\ App.selectedShape (App.state p') = Some Network.track
      /\ App.patterns (App.state p') = Samples.january).
Proof.
  split.
  - apply (proj1 (handleStartup_without_line string Network.allLines
                    Network.patternsOf Network.shapeOf
                    (Network.onLine1001
                       {| App.line := None;
                          App.active_pattern_id := None |}))).
    reflexivity.
  - apply (proj2 (handleStartup_without_line string Network.allLines
                    Network.patternsOf Network.shapeOf
                    (Network.onLine1001
                       {| App.line := Some "9999";
                          App.active_pattern_id := None |}))
             "9999" Network.line1001);
      [reflexivity|discriminate|reflexivity|reflexivity].
Defined.


(** The address that [selectLine] writes, read back by [handleStartup] (a
    reload, or a move in the history).  The address carries the short name
    of the line; [handleStartup] takes the first line of the list whose
    short name or identifier is that text.  When that line has the
    identifier of the selected line the page stays as it is, without a
    request; otherwise that other line is selected and its patterns are
    loaded. *)
Theorem selectLine_address_read_back
  (number : Type) (fetchLines : list Catalog.Line)
  (fetchPatterns fetchPatterns' : list string -> list Pattern)
  (fetchShape : string -> option (Shape number))
  (p : App.Page number) (l l' : Catalog.Line) :
  Catalog.Line_short_name l <> EmptyString ->
  find (fun x => String.eqb (Catalog.Line_short_name x)
                            (Catalog.Line_short_name l)
                 || String.eqb (Catalog.Line_id x)
                               (Catalog.Line_short_name l))
       (App.lines (App.state p)) = Some l' ->
  let p1 := App.selectLine fetchPatterns p l true in
  let p2 := App.handleStartup fetchLines fetchPatterns' fetchShape p1 in
  (Catalog.Line_id l' = Catalog.Line_id l -> p2 = p1)
  /\ (Catalog.Line_id l' <> Catalog.Line_id l ->
      App.selectedLine (App.state p2) = Some l'
      /\ App.patterns (App.state p2)
         = fetchPatterns' (Catalog.Line_patterns l')
      /\ App.search p2 = App.search p1).
Proof.
  intros Hname Hfind p1 p2. subst p2 p1.
  apply String.eqb_neq in Hname.
  destruct p as [[lines sl sp ss st pats date time dir vm] srch shown].
  cbn [App.state App.lines] in Hfind.
  unfold App.handleStartup, App.selectLine, App.updateURL, App.loadLines.
  cbv [App.with_state App.with_downloadSection App.with_search App.state
       App.search App.downloadSection_shown
       App.line App.active_pattern_id
       App.set_patterns App.set_direction App.set_selectedShape
       App.set_selectedTrip App.set_selectedPattern App.set_selectedLine
       App.set_lines
       App.lines App.selectedLine App.selectedPattern App.selectedShape
       App.selectedTrip App.patterns App.date App.time App.direction
       App.viewMode truthy Truthy_undefinable Truthy_string].
  rewrite Hname. cbn [negb].
  assert (Hlen : (List.length lines =? 0)%nat = false).
  { destruct lines; [discriminate Hfind|reflexivity]. }
  rewrite Hlen.
  rewrite ?Hname. cbn [negb].
  rewrite Hfind.
  split.
  - intros Hid. rewrite Hid, String.eqb_refl. reflexivity.
  - intros Hid. apply not_eq_sym in Hid. apply String.eqb_neq in Hid.
    rewrite Hid. cbn [negb]. repeat split.
Qed.

Lemma selectLine_address_read_back_witness :
  App.handleStartup Network.allLines Network.patternsOf Network.shapeOf
    (App.selectLine Network.patternsOf
       (Network.onLine1001
          {| App.line := None; App.active_pattern_id := None |})
       Network.line1704 true)
  = App.selectLine Network.patternsOf
      (Network.onLine1001
         {| App.line := None; App.active_pattern_id := None |})
      Network.line1704 true.
Proof.
  apply (proj1 (selectLine_address_read_back string Network.allLines
                  Network.patternsOf Network.patternsOf Network.shapeOf
                  (Network.onLine1001
                     {| App.line := None; App.active_pattern_id := None |})
                  Network.line1704 Network.line1704
                  ltac:(discriminate) eq_refl)).
  reflexivity.
Defined.

(** The address that [selectTrip] writes, read back by [handleStartup].  The
    address carries the line and the identifier of the pattern, not the
    trip: reading it back selects the first pattern of the line with that
    identifier and the first trip of that pattern, whichever trip was
    clicked; the direction of the view follows the pattern and the shape is
    requested again, the earlier one staying when the request fails. *)
Theorem selectTrip_address_read_back
  (number : Type) (fetchLines : list Catalog.Line)
  (fetchPatterns : list string -> list Pattern)
  (fetchShape fetchShape' : string -> option (Shape number))
  (p : App.Page number) (item : TripData) (l l' : Catalog.Line)
  (q : Pattern) :
  App.selectedLine (App.state p) = Some l ->
  Catalog.Line_short_name l <> EmptyString ->
  id (pattern item) <> EmptyString ->
  find (fun x => String.eqb (Catalog.Line_short_name x)
                            (Catalog.Line_short_name l)
                 || String.eqb (Catalog.Line_id x)
                               (Catalog.Line_short_name l))
       (App.lines (App.state p)) = Some l' ->
  Catalog.Line_id l' = Catalog.Line_id l ->
  find (fun q' => String.eqb (id q') (id (pattern item)))
       (App.patterns (App.state p)) = Some q ->
  let p1 := App.selectTrip fetchShape p item true in
  let p2 := App.handleStartup fetchLines fetchPatterns fetchShape' p1 in
  match trips q with
  | first :: _ =>
      App.selectedLine (App.state p2) = Some l
      /\ App.selectedPattern (App.state p2) = Some q
      /\ App.selectedTrip (App.state p2) = Some first
      /\ App.direction (App.state p2) = direction q
      /\ App.selectedShape (App.state p2)
         = match fetchShape' (shape_id q) with
           | Some shape => Some shape
           | None => App.selectedShape (App.state p1)
           end
      /\ App.patterns (App.state p2) = App.patterns (App.state p)
  | [] => p2 = p1
  end.
Proof.
  intros Hsel Hname Hpid Hfind Hid Hpat p1 p2.
  apply String.eqb_neq in Hname, Hpid.
  assert (Hlen : (List.length (App.lines (App.state p)) =? 0)%nat = false).
  { destruct (App.lines (App.state p)); [discriminate Hfind|reflexivity]. }
  assert (Hstate : App.lines (App.state p1) = App.lines (App.state p)
                   /\ App.selectedLine (App.state p1) = Some l
                   /\ App.patterns (App.state p1) = App.patterns (App.state p)
                   /\ App.search p1
                      = {| App.line := Some (Catalog.Line_short_name l);
                           App.active_pattern_id
                           := Some (id (pattern item)) |}).
  { unfold p1, App.selectTrip, App.showShape. cbv zeta.
    destruct (fetchShape (shape_id (pattern item)));
      cbn [App.with_state App.with_downloadSection App.with_search App.state
           App.search App.set_selectedShape App.set_selectedTrip
           App.set_selectedPattern App.lines App.selectedLine App.patterns];
      rewrite Hsel; cbn [option_map]; unfold App.updateURL;
      change (truthy (Some (Catalog.Line_short_name l)))
        with (negb (String.eqb (Catalog.Line_short_name l) EmptyString));
      change (truthy (Some (id (pattern item))))
        with (negb (String.eqb (id (pattern item)) EmptyString));
      rewrite Hname, Hpid; repeat split. }
  destruct Hstate as (Hlines & Hsel1 & Hpats & Hsearch).
  subst p2. clearbody p1.
  unfold App.handleStartup. cbv zeta.
  rewrite Hsearch. cbn [App.line App.active_pattern_id].
  change (truthy (Some (Catalog.Line_short_name l)))
    with (negb (String.eqb (Catalog.Line_short_name l) EmptyString)).
  change (truthy (Some (id (pattern item))))
    with (negb (String.eqb (id (pattern item)) EmptyString)).
  rewrite Hname, Hpid. cbn [negb].
  rewrite Hlines, Hlen, Hlines, Hfind, Hsel1, Hid, String.eqb_refl.
  cbn [negb]. rewrite Hpats, Hpat.
  unfold App.firstTripData.
  destruct (trips q) as [|first rest]; cbn [nth_error]; [reflexivity|].
  unfold App.selectTrip, App.showShape. cbv zeta. cbn [pattern trip].
  destruct (negb (Z.eqb (direction q) (App.direction (App.state p1)))) eqn:Ed;
    destruct (fetchShape' (shape_id q));
    cbn [App.with_state App.with_downloadSection App.with_search App.state
         App.set_selectedShape App.set_selectedTrip App.set_selectedPattern
         App.set_direction
         App.lines App.selectedLine App.selectedPattern App.selectedShape
         App.selectedTrip App.patterns App.direction];
    repeat split; try assumption;
    apply negb_false_iff, Z.eqb_eq in Ed; congruence.
Qed.

Lemma selectTrip_address_read_back_witness :
  let p1 := App.selectTrip Network.shapeOf
              (Network.onLine1001
                 {| App.line := None; App.active_pattern_id := None |})
              Network.cardB true in
  let p2 := App.handleStartup Network.allLines Network.patternsOf
              Network.shapeOf p1 in
  App.selectedTrip (App.state p1) = Some (trip Network.cardB)
  /\ App.selectedLine (App.state p2) = Some Network.line1001
  /\ App.selectedPattern (App.state p2) = Some Network.ida
  /\ App.selectedTrip (App.state p2) = Some Network.tripA
  /\ App.direction (App.state p2) = 0%Z
  /\ App.selectedShape (App.state p2) = Some Network.track
  /\ App.patterns (App.state p2) = Samples.january.
Proof.
  split; [reflexivity|].
  apply (selectTrip_address_read_back string Network.allLines
           Network.patternsOf Network.shapeOf Network.shapeOf
           (Network.onLine1001
              {| App.line := None; App.active_pattern_id := None |})
           Network.cardB Network.line1001 Network.line1001 Network.ida);
    [reflexivity|discriminate|discriminate|reflexivity|reflexivity
    |reflexivity].
Defined.

(* ================================================================== *)
(** ** The list of lines and the cards                                 *)
(* ================================================================== *)

Lemma String_includes_empty (hay : string) :
  LineList.String_includes hay EmptyString = true.
Proof. destruct hay; reflexivity. Qed.

Lemma firstn_filter_incl (B : Type) (f : B -> bool) (n : nat) (l : list B)
  (x : B) :
  In x (firstn n (filter f l)) -> In x l /\ f x = true.
Proof.
  intros H. apply filter_In. revert H. generalize (filter f l). intros l'.
  revert n. induction l' as [|y l' IH]; intros [|n] H; simpl in H;
    try contradiction.
  destruct H as [->|H]; [now left|right; eauto].
Qed.

(** The search box.  Every card shown is a line of the catalogue that
    matches the query.  While the box holds text, every matching line is
    shown; when it is empty (and the host lowers the empty text to itself)
    the list is the first 50 lines of the catalogue, whatever their names;
    the notice that nothing was found appears exactly when no line matches. *)
Theorem searchInput_shows
  (toLowerCase : string -> string) (state_lines : list Catalog.Line)
  (value : string) :
  let found := filter (LineList.matches toLowerCase (toLowerCase value))
                      state_lines in
  (LineList.searchInput toLowerCase state_lines value = LineList.emptyState
   <-> found = [])
  /\ (forall shown l,
        LineList.searchInput toLowerCase state_lines value
        = LineList.cards shown ->
        In l shown ->
        In l state_lines
        /\ LineList.matches toLowerCase (toLowerCase value) l = true)
  /\ (value <> EmptyString -> found <> [] ->
      LineList.searchInput toLowerCase state_lines value
      = LineList.cards found)
  /\ (value = EmptyString -> toLowerCase EmptyString = EmptyString ->
      state_lines <> [] ->
      LineList.searchInput toLowerCase state_lines value
      = LineList.cards (firstn 50 state_lines)).
Proof.
  intros found. unfold LineList.searchInput, LineList.renderLines.
  cbv zeta. fold found.
  assert (Hfound : forall l, In l found ->
            In l state_lines
            /\ LineList.matches toLowerCase (toLowerCase value) l = true)
    by (intros l Hl; now apply filter_In in Hl).
  assert (Hfirst : forall l, In l (firstn 50 found) ->
            In l state_lines
            /\ LineList.matches toLowerCase (toLowerCase value) l = true)
    by (intros l Hl; now apply firstn_filter_incl in Hl).
  assert (Hempty : value = EmptyString ->
            toLowerCase EmptyString = EmptyString -> found = state_lines).
  { intros -> Hlow. unfold found. rewrite Hlow. apply filter_all.
    intros l _. unfold LineList.matches.
    now rewrite String_includes_empty. }
  clearbody found. split; [|split; [|split]].
  - destruct found; simpl; split; congruence.
  - intros shown l Hshown Hl.
    destruct found as [|x found']; [discriminate Hshown|].
    cbn [List.length Nat.eqb] in Hshown. inversion Hshown; subst shown.
    destruct (truthy value); auto.
  - intros Hv Hf. destruct found; [congruence|].
    cbn [List.length Nat.eqb]. unfold truthy, Truthy_string.
    apply String.eqb_neq in Hv. now rewrite Hv.
  - intros Hv Hlow Hne. rewrite (Hempty Hv Hlow). subst value.
    destruct state_lines; [congruence|reflexivity].
Qed.

Lemma searchInput_shows_witness :
  LineList.searchInput Network.lower Network.allLines "Reb"
  = LineList.cards [Network.line1001]
  /\ LineList.searchInput Network.lower Network.allLines EmptyString
     = LineList.cards (firstn 50 Network.allLines).
Proof.
  split.
  - apply (proj1 (proj2 (proj2 (searchInput_shows Network.lower
                                  Network.allLines "Reb"))));
      discriminate.
  - apply (proj2 (proj2 (proj2 (searchInput_shows Network.lower
                                  Network.allLines EmptyString))));
      [reflexivity|reflexivity|discriminate].
Defined.

(** The headline of a card is never empty, and a pattern shown in the list
    of variants of its direction has the headline of its trips. *)
Theorem headsign_never_empty (item : TripData) (state_direction : Z) :
  LineList.tripHeadsign item <> EmptyString
  /\ LineList.patternHeadsign state_direction (pattern item) <> EmptyString
  /\ (direction (pattern item) = state_direction ->
      LineList.patternHeadsign state_direction (pattern item)
      = LineList.tripHeadsign item).
Proof.
  unfold LineList.tripHeadsign, LineList.patternHeadsign, or_else.
  cbv zeta. unfold truthy, Truthy_string.
  repeat split.
  - destruct (short_name (pattern item)) as [s|].
    + destruct (String.eqb_spec s EmptyString); cbn [negb];
        [destruct (Z.eqb _ 0); discriminate|assumption].
    + destruct (Z.eqb _ 0); discriminate.
  - destruct (short_name (pattern item)) as [s|].
    + destruct (String.eqb_spec s EmptyString); cbn [negb];
        [destruct (Z.eqb _ 0); discriminate|assumption].
    + destruct (Z.eqb _ 0); discriminate.
  - intros ->. reflexivity.
Qed.
